(** * Tudat: observation models, estimation settings and linear algebra

    A shallow embedding of the parts of Tudat that the orbit-determination
    specification talks about, and the properties proved about them.

    Conventions of the embedding:
    - a C++ function that may throw returns a [result]: [Returns v] or
      [Throws e];
    - a [std::vector] is a [seq]; a by-reference output vector is passed in
      and handed back;
    - a [std::map] is an association list with pairwise distinct keys;
    - a C++ [int] is an integer of MathComp's [int] (nothing below depends on
      overflow);
    - [double] is IEEE binary64 ([float]) where the code fixes the type to
      [double] and the property is about comparisons; code that is templated
      over its scalar type ([ObservationScalarType]) is embedded over an
      arbitrary field, and so are the functions on [Eigen::Vector3d] whose
      properties are identities of exact arithmetic;
    - an access outside of a vector through [operator[]] is undefined in
      C++: the functions that index into vectors return an [option], [None]
      standing for such an access. *)

Set Warnings "-notation-overridden,-ambiguous-paths,-inexact-float,-rewrite-rw".
From Stdlib Require Import String ZArith Floats.
From HB Require Import structures.
From mathcomp Require Import boot order algebra.

Set Implicit Arguments.
Unset Strict Implicit.
Unset Printing Implicit Defensive.

(** ** Exceptions *)

(** The exceptions the embedded code raises: [std::runtime_error] (thrown
    explicitly) and [std::out_of_range] (thrown by [std::map::at]). *)
Inductive exception : Type :=
| runtime_error (what : string)
| out_of_range (what : string).

Inductive result (A : Type) : Type :=
| Returns (a : A)
| Throws (e : exception).

Arguments Returns {A} a.
Arguments Throws {A} e.

Definition bind {A B : Type} (r : result A) (k : A -> result B) : result B :=
  match r with
  | Returns a => k a
  | Throws e => Throws e
  end.

Notation "'let*' x ':=' r 'in' k" := (bind r (fun x => k))
  (at level 10, x name, r at level 100, k at level 200,
   format "'[v' 'let*'  x  :=  r  'in' '/' k ']'").

Definition returns {A : Type} (r : result A) : bool :=
  if r is Returns _ then true else false.

Definition throws {A : Type} (r : result A) : bool :=
  if r is Throws _ then true else false.

Definition throws_runtime_error {A : Type} (r : result A) : bool :=
  if r is Throws (runtime_error _) then true else false.

Lemma throwsE (A : Type) (r : result A) : throws r = ~~ returns r.
Proof. by case: r. Qed.

Lemma throws_runtime_error_throws (A : Type) (r : result A) :
  throws_runtime_error r -> throws r.
Proof. by case: r => [a|[w|w]]. Qed.

(** [std::string] equality, as a MathComp [eqType]. *)
HB.instance Definition _ := hasDecEq.Build string String.eqb_spec.

(** ** Observable types and link-end types (observableTypes.cpp) *)

(** Modelled from the spec: the enumeration [ObservableType] of
    observableTypes.h, which is not among the sources.  The four named
    enumerators are those the code switches on; [other_observable] stands
    for every further value of the C++ enumeration type, which is what the
    [default] branches of the code receive. *)
Inductive ObservableType : Type :=
| one_way_range
| angular_position
| position_observable
| one_way_doppler
| other_observable (code : nat).

(** Modelled from the spec: the enumeration [LinkEndType] of linkTypeDefs.h,
    which is not among the sources.  The spec names the roles transmitter,
    receiver and observed body; [other_link_end] stands for every further
    value of the C++ enumeration type. *)
Inductive LinkEndType : Type :=
| transmitter
| receiver
| observed_body
| other_link_end (code : nat).

Definition ObservableType_eqb (a b : ObservableType) : bool :=
  match a, b with
  | one_way_range, one_way_range => true
  | angular_position, angular_position => true
  | position_observable, position_observable => true
  | one_way_doppler, one_way_doppler => true
  | other_observable m, other_observable n => m == n
  | _, _ => false
  end.

Lemma ObservableType_eqP : Equality.axiom ObservableType_eqb.
Proof.
move=> a b; apply: (iffP idP) => [|<-]; last by case: a => //= n.
by case: a; case: b => //= m n /eqP ->.
Qed.

HB.instance Definition _ := hasDecEq.Build ObservableType ObservableType_eqP.

Definition LinkEndType_eqb (a b : LinkEndType) : bool :=
  match a, b with
  | transmitter, transmitter => true
  | receiver, receiver => true
  | observed_body, observed_body => true
  | other_link_end m, other_link_end n => m == n
  | _, _ => false
  end.

Lemma LinkEndType_eqP : Equality.axiom LinkEndType_eqb.
Proof.
move=> a b; apply: (iffP idP) => [|<-]; last by case: a => //= n.
by case: a; case: b => //= m n /eqP ->.
Qed.

HB.instance Definition _ := hasDecEq.Build LinkEndType LinkEndType_eqP.

(** The messages of the exceptions are kept up to the place where the code
    splices in [boost::lexical_cast] of an enumeration value or a size: the
    numeric values of the enumerators are declared in the missing headers. *)

(** [getObservableName]: the name (string) of an observable type. *)
Definition getObservableName (observableType : ObservableType) : result string :=
  match observableType with
  | one_way_range => Returns "OneWayRange"%string
  | angular_position => Returns "AngularPosition"%string
  | position_observable => Returns "CartesianPosition"%string
  | one_way_doppler => Returns "OneWayDoppler"%string
  | other_observable _ =>
      Throws (runtime_error "Error, could not find observable type "%string)
  end.

(** [getObservableType]: the observable type of a name. *)
Definition getObservableType (observableName : string) : result ObservableType :=
  if observableName == "OneWayRange"%string then Returns one_way_range
  else if observableName == "AngularPosition"%string then Returns angular_position
  else if observableName == "CartesianPosition"%string then Returns position_observable
  else if observableName == "OneWayDoppler"%string then Returns one_way_doppler
  else Throws (runtime_error "Error, could not find observable name "%string).

(** The inner [switch( linkEndType )] shared, textually, by the one-way
    range, one-way Doppler and angular position cases. *)
Definition pushTransmitterReceiverIndex
    (linkEndType : LinkEndType) (linkEndIndices : seq int) : result (seq int) :=
  match linkEndType with
  | transmitter => Returns (rcons linkEndIndices 0%Z)
  | receiver => Returns (rcons linkEndIndices 1%Z)
  | _ =>
      Throws (runtime_error
        "Error, could not find link end type index for link end "%string)
  end.

(** [getLinkEndIndicesForLinkEndTypeAtObservable]: the indices in the lists
    of link-end times and states for a link-end type and observable type.

    The [position_observable] case of the [switch] does not end in [break]:
    when its [if] does not throw, control falls through into the [default]
    label, whose body throws. *)
Definition getLinkEndIndicesForLinkEndTypeAtObservable
    (observableType : ObservableType) (linkEndType : LinkEndType) : result (seq int) :=
  let linkEndIndices : seq int := [::] in
  match observableType with
  | one_way_range => pushTransmitterReceiverIndex linkEndType linkEndIndices
  | one_way_doppler => pushTransmitterReceiverIndex linkEndType linkEndIndices
  | angular_position => pushTransmitterReceiverIndex linkEndType linkEndIndices
  | position_observable =>
      let* linkEndIndices' :=
        (if linkEndType == observed_body then Returns (rcons linkEndIndices 0%Z)
         else Throws (runtime_error
           "Error, could not find link end type index for link end "%string)) in
      (* no break: falls through into default *)
      Throws (runtime_error
        "Error, could not find link end type index for link end types of observable "%string)
  | other_observable _ =>
      Throws (runtime_error
        "Error, could not find link end type index for link end types of observable "%string)
  end.

(** The observable types and names the two conversion functions support. *)
Definition supportedObservableTypes : seq ObservableType :=
  [:: one_way_range; angular_position; position_observable; one_way_doppler].

Definition supportedObservableNames : seq string :=
  [:: "OneWayRange"; "AngularPosition"; "CartesianPosition"; "OneWayDoppler"]%string.

(** ** Properties of observableTypes.cpp *)

Lemma getObservableType_unsupported (s : string) :
  s \notin supportedObservableNames -> throws_runtime_error (getObservableType s).
Proof.
rewrite /supportedObservableNames !inE !negb_or /getObservableType.
by case/and4P => /negPf -> /negPf -> /negPf -> /negPf ->.
Qed.

(** C9. For each of the four supported observable types [t],
    [getObservableType (getObservableName t) = t]; for each of the four
    corresponding names [s], [getObservableName (getObservableType s) = s];
    and both functions throw a runtime error on every other input. *)
Theorem getObservableName_getObservableType_inverse :
  (forall t, t \in supportedObservableTypes ->
     (let* s := getObservableName t in getObservableType s) = Returns t) /\
  (forall s, s \in supportedObservableNames ->
     (let* t := getObservableType s in getObservableName t) = Returns s) /\
  (forall t, t \notin supportedObservableTypes ->
     throws_runtime_error (getObservableName t)) /\
  (forall s, s \notin supportedObservableNames ->
     throws_runtime_error (getObservableType s)).
Proof.
split; [|split; [|split]].
- by move=> t; rewrite !inE; case: t.
- move=> s; rewrite !inE.
  by case/or4P => /eqP ->.
- by case.
- exact: getObservableType_unsupported.
Qed.

Lemma getObservableName_getObservableType_inverse_witness :
  (let* s := getObservableName one_way_doppler in getObservableType s)
    = Returns one_way_doppler /\
  (let* t := getObservableType "CartesianPosition"%string in getObservableName t)
    = Returns "CartesianPosition"%string /\
  throws_runtime_error (getObservableName (other_observable 7)) /\
  throws_runtime_error (getObservableType "TwoWayRange"%string).
Proof.
case: getObservableName_getObservableType_inverse => Hn [Ht [Hn' Ht']].
split; [exact: Hn | split; [exact: Ht | split; [exact: Hn' | exact: Ht']]].
Defined.

(** C1, as the code behaves.  For the position observable,
    [getLinkEndIndicesForLinkEndTypeAtObservable] throws for every link-end
    type, the observed body included: the index 0 it pushes for
    [observed_body] is lost when control falls through into [default]. *)
Theorem getLinkEndIndices_position_observable_throws (linkEndType : LinkEndType) :
  getLinkEndIndicesForLinkEndTypeAtObservable position_observable linkEndType
  = Throws (runtime_error
      (if linkEndType == observed_body
       then "Error, could not find link end type index for link end types of observable "
       else "Error, could not find link end type index for link end ")%string).
Proof. by case: linkEndType. Qed.

(** ** One-way Doppler observation model (oneWayDopplerObservationModel.h) *)

Import GRing.Theory.
Local Open Scope ring_scope.

Section OneWayDoppler.

(** The code is templated over [ObservationScalarType] and [TimeType]; the
    lists handed back to the caller hold [double], into which the code casts.
    One ordered field [F] stands for the three of them (the cast is then the
    identity), with [sqrt] the square root the scalar type comes with. *)
Variable F : realFieldType.
Variable sqrt : F -> F.

(** [physical_constants::getSpeedOfLight] (physicalConstants.h, not among the
    sources). *)
Variable SPEED_OF_LIGHT : F.

(** [Eigen::Matrix< ObservationScalarType, 6, 1 >]: a Cartesian state, three
    position components followed by three velocity components. *)
Definition StateType : Type := 'cV[F]_(3 + 3).
Definition PositionType : Type := 'cV[F]_3.

(** [state.segment( 0, 3 )] and [state.segment( 3, 3 )]. *)
Definition position_of (state : StateType) : PositionType := usubmx state.
Definition velocity_of (state : StateType) : PositionType := dsubmx state.

(** Eigen's [dot], [squaredNorm] and [normalized].  [normalized] hands back
    its argument when the squared norm is not positive. *)
Definition dot (n : nat) (u v : 'cV[F]_n) : F := \sum_i u i 0 * v i 0.

Definition squaredNorm (n : nat) (v : 'cV[F]_n) : F := dot v v.

Definition normalized (n : nat) (v : 'cV[F]_n) : 'cV[F]_n :=
  if 0 < squaredNorm v then (sqrt (squaredNorm v))^-1 *: v else v.

(** [calculateLineOfSightVelocityAsCFraction]: the component of a velocity
    along a unit vector, divided by the speed of light. *)
Definition calculateLineOfSightVelocityAsCFraction
    (lineOfSightUnitVector velocityVector : PositionType) : F :=
  dot lineOfSightUnitVector velocityVector / SPEED_OF_LIGHT.

(** One pass of the loop body of the Taylor series: the pair is
    [(currentTaylorSeriesTerm, currentTaylorSeries)]. *)
Definition taylorSeriesStep (receiverTerm : F) (termAndSeries : F * F) : F * F :=
  let currentTaylorSeriesTerm := termAndSeries.1 * receiverTerm in
  (currentTaylorSeriesTerm, termAndSeries.2 + currentTaylorSeriesTerm).

(** The number of passes of [for( int i = 0; i < order; i++ )]: none for a
    negative [order]. *)
Definition numberOfPasses (order : int) : nat :=
  if order is Posz n then n else 0%N.

(** [computeOneWayFirstOrderDopplerTaylorSeriesExpansion]. *)
Definition computeOneWayFirstOrderDopplerTaylorSeriesExpansion
    (transmitterState receiverState : StateType) (taylorSeriesOrder : int) : F :=
  let relativePostion :=
    normalized (position_of (receiverState - transmitterState)) in
  let transmitterTerm :=
    dot relativePostion (velocity_of transmitterState) / SPEED_OF_LIGHT in
  let receiverTerm :=
    dot relativePostion (velocity_of receiverState) / SPEED_OF_LIGHT in
  let termAndSeries :=
    iter (numberOfPasses taylorSeriesOrder) (taylorSeriesStep receiverTerm) (1, 0) in
  - transmitterTerm + termAndSeries.2 * (1 - transmitterTerm).

(** [LightTimeCalculator::calculateLightTimeWithLinkEndsStates]
    (lightTimeSolution.h, not among the sources), as the model uses it: from
    the reference time and the flag [isTimeAtReception] it yields the light
    time and, through its two reference arguments, the receiver state and the
    transmitter state; it may throw. *)
Record LightTimeSolution : Type := mkLightTimeSolution {
  lightTime : F;
  receiverStateOutput : StateType;
  transmitterStateOutput : StateType
}.

Definition LightTimeCalculator : Type := F -> bool -> result LightTimeSolution.

(** The observation bias object is carried along and not used by the two
    functions embedded here. *)
Variable ObservationBias1 : Type.

(** The class [OneWayDopplerObservationModel].  Its members [receiverState_]
    and [transmitterState_] are scratch space: every function overwrites them
    through the light-time calculator before reading them, so the embedding
    keeps them local to the call. *)
Record OneWayDopplerObservationModel : Type := mkOneWayDopplerObservationModel {
  lightTimeCalculator_ : LightTimeCalculator;
  observationBiasCalculator_ : option ObservationBias1;
  one_ : F;
  taylorSeriesExpansionOrder_ : int
}.

(** The constructor. *)
Definition newOneWayDopplerObservationModel
    (lightTimeCalculator : LightTimeCalculator)
    (observationBiasCalculator : option ObservationBias1) :
    OneWayDopplerObservationModel :=
  {| lightTimeCalculator_ := lightTimeCalculator;
     observationBiasCalculator_ := observationBiasCalculator;
     one_ := 1;
     taylorSeriesExpansionOrder_ := 3 |}.

(** [computeIdealObservations]. *)
Definition computeIdealObservations
    (model : OneWayDopplerObservationModel)
    (time : F) (linkEndAssociatedWithTime : LinkEndType) : result F :=
  let* isTimeAtReception :=
    match linkEndAssociatedWithTime with
    | receiver => Returns true
    | transmitter => Returns false
    | _ => Throws (runtime_error
        "Error when calculating one way Doppler observation, link end is not transmitter or receiver"%string)
    end in
  (* the call passes the literal true, not isTimeAtReception *)
  let* solution := lightTimeCalculator_ model time true in
  Returns (computeOneWayFirstOrderDopplerTaylorSeriesExpansion
             (transmitterStateOutput solution) (receiverStateOutput solution)
             (taylorSeriesExpansionOrder_ model)).

(** What [computeIdealObservationsWithLinkEndData] hands back: the observable
    and the two vectors it received by reference. *)
Record ObservationWithLinkEndData : Type := mkObservationWithLinkEndData {
  observable : F;
  linkEndTimesAfter : seq F;
  linkEndStatesAfter : seq StateType
}.

(** [computeIdealObservationsWithLinkEndData].  The code appends to
    [linkEndTimes] and [linkEndStates] with [push_back]; it does not clear
    them first. *)
Definition computeIdealObservationsWithLinkEndData
    (model : OneWayDopplerObservationModel)
    (time : F) (linkEndAssociatedWithTime : LinkEndType)
    (linkEndTimes : seq F) (linkEndStates : seq StateType) :
    result ObservationWithLinkEndData :=
  let* lightTimeData :=
    match linkEndAssociatedWithTime with
    | receiver =>
        let* solution := lightTimeCalculator_ model time true in
        let transmissionTime := time - lightTime solution in
        let receptionTime := time in
        Returns (solution, transmissionTime, receptionTime)
    | transmitter =>
        let* solution := lightTimeCalculator_ model time false in
        let transmissionTime := time in
        let receptionTime := time + lightTime solution in
        Returns (solution, transmissionTime, receptionTime)
    | _ => Throws (runtime_error
        "Error when calculating one way Doppler observation, link end is not transmitter or receiver"%string)
    end in
  let: (solution, transmissionTime, receptionTime) := lightTimeData in
  let linkEndTimes := rcons (rcons linkEndTimes transmissionTime) receptionTime in
  let linkEndStates :=
    rcons (rcons linkEndStates (transmitterStateOutput solution))
          (receiverStateOutput solution) in
  let dopplerObservable :=
    computeOneWayFirstOrderDopplerTaylorSeriesExpansion
      (transmitterStateOutput solution) (receiverStateOutput solution)
      (taylorSeriesExpansionOrder_ model) in
  Returns (mkObservationWithLinkEndData dopplerObservable linkEndTimes linkEndStates).

(** *** Properties of the Taylor series *)

(** The unit vector from the transmitter to the receiver, as the code
    computes it, and the two projected velocities as fractions of the speed
    of light. *)
Definition lineOfSight (transmitterState receiverState : StateType) : PositionType :=
  normalized (position_of (receiverState - transmitterState)).

Definition transmitterFraction (transmitterState receiverState : StateType) : F :=
  calculateLineOfSightVelocityAsCFraction
    (lineOfSight transmitterState receiverState) (velocity_of transmitterState).

Definition receiverFraction (transmitterState receiverState : StateType) : F :=
  calculateLineOfSightVelocityAsCFraction
    (lineOfSight transmitterState receiverState) (velocity_of receiverState).

Lemma dotZl (n : nat) (a : F) (u v : 'cV[F]_n) : dot (a *: u) v = a * dot u v.
Proof.
rewrite /dot mulr_sumr; apply: eq_bigr => i _.
by rewrite mxE mulrA.
Qed.

Lemma dotZr (n : nat) (a : F) (u v : 'cV[F]_n) : dot u (a *: v) = a * dot u v.
Proof.
rewrite /dot mulr_sumr; apply: eq_bigr => i _.
by rewrite mxE mulrCA.
Qed.

(** Where the square root is exact on the squared norm of a non-zero vector,
    [normalized] yields a unit vector. *)
Lemma squaredNorm_normalized (n : nat) (v : 'cV[F]_n) :
  0 < squaredNorm v -> sqrt (squaredNorm v) ^+ 2 = squaredNorm v ->
  squaredNorm (normalized v) = 1.
Proof.
move=> v_gt0 sqrtK; rewrite /normalized v_gt0 /squaredNorm dotZl dotZr.
rewrite mulrA -invfM -expr2 sqrtK -/(squaredNorm v) mulVf //.
exact: Num.Theory.lt0r_neq0.
Qed.

(** After [n] passes the loop holds the [n]-th power of the receiver term and
    the sum of its powers 1 to [n]. *)
Lemma iter_taylorSeriesStep (x : F) (n : nat) :
  iter n (taylorSeriesStep x) (1, 0) = (x ^+ n, \sum_(1 <= i < n.+1) x ^+ i).
Proof.
elim: n => [|n IHn]; first by rewrite /= expr0 big_geq.
by rewrite iterS IHn /taylorSeriesStep /= -exprSr (big_nat_recr n.+1).
Qed.

Lemma computeOneWayFirstOrderDopplerTaylorSeriesExpansionE
    (transmitterState receiverState : StateType) (order : int) :
  computeOneWayFirstOrderDopplerTaylorSeriesExpansion
    transmitterState receiverState order
  = - transmitterFraction transmitterState receiverState
    + (\sum_(1 <= i < (numberOfPasses order).+1)
         receiverFraction transmitterState receiverState ^+ i)
      * (1 - transmitterFraction transmitterState receiverState).
Proof.
by rewrite /computeOneWayFirstOrderDopplerTaylorSeriesExpansion iter_taylorSeriesStep.
Qed.






(** *** Link-end times and states handed back to the caller *)

(** What the function does with the two vectors it receives by reference: it
    appends the transmission and reception times, and the transmitter and
    receiver states, in that order, to what the vectors already hold. *)
Lemma computeIdealObservationsWithLinkEndData_appends
    (model : OneWayDopplerObservationModel) (time : F) (linkEnd : LinkEndType)
    (linkEndTimes : seq F) (linkEndStates : seq StateType) :
  computeIdealObservationsWithLinkEndData model time linkEnd linkEndTimes linkEndStates
  = match linkEnd with
    | receiver =>
        let* solution := lightTimeCalculator_ model time true in
        Returns (mkObservationWithLinkEndData
          (computeOneWayFirstOrderDopplerTaylorSeriesExpansion
             (transmitterStateOutput solution) (receiverStateOutput solution)
             (taylorSeriesExpansionOrder_ model))
          (linkEndTimes ++ [:: time - lightTime solution; time])
          (linkEndStates
             ++ [:: transmitterStateOutput solution; receiverStateOutput solution]))
    | transmitter =>
        let* solution := lightTimeCalculator_ model time false in
        Returns (mkObservationWithLinkEndData
          (computeOneWayFirstOrderDopplerTaylorSeriesExpansion
             (transmitterStateOutput solution) (receiverStateOutput solution)
             (taylorSeriesExpansionOrder_ model))
          (linkEndTimes ++ [:: time; time + lightTime solution])
          (linkEndStates
             ++ [:: transmitterStateOutput solution; receiverStateOutput solution]))
    | _ => Throws (runtime_error
        "Error when calculating one way Doppler observation, link end is not transmitter or receiver"%string)
    end.
Proof.
rewrite /computeIdealObservationsWithLinkEndData.
case: linkEnd => [|||code] //=.
- by case: (lightTimeCalculator_ model time false) => [solution|e] //=; rewrite -!cats1 -!catA.
- by case: (lightTimeCalculator_ model time true) => [solution|e] //=; rewrite -!cats1 -!catA.
Qed.

(** Called with empty vectors, the function hands back exactly the two times
    and the two states, transmitter first; any link end other than the
    transmitter and the receiver makes it throw. *)
Lemma computeIdealObservationsWithLinkEndData_from_empty
    (model : OneWayDopplerObservationModel) (time : F) :
  (forall solution, lightTimeCalculator_ model time true = Returns solution ->
     exists value,
       computeIdealObservationsWithLinkEndData model time receiver [::] [::]
       = Returns (mkObservationWithLinkEndData value
           [:: time - lightTime solution; time]
           [:: transmitterStateOutput solution; receiverStateOutput solution]))
  /\ (forall solution, lightTimeCalculator_ model time false = Returns solution ->
     exists value,
       computeIdealObservationsWithLinkEndData model time transmitter [::] [::]
       = Returns (mkObservationWithLinkEndData value
           [:: time; time + lightTime solution]
           [:: transmitterStateOutput solution; receiverStateOutput solution]))
  /\ (forall linkEnd linkEndTimes linkEndStates,
       linkEnd \notin [:: transmitter; receiver] ->
       throws_runtime_error
         (computeIdealObservationsWithLinkEndData
            model time linkEnd linkEndTimes linkEndStates)).
Proof.
split; [|split].
- move=> solution Hsolution.
  by rewrite computeIdealObservationsWithLinkEndData_appends Hsolution /=; eexists.
- move=> solution Hsolution.
  by rewrite computeIdealObservationsWithLinkEndData_appends Hsolution /=; eexists.
- move=> linkEnd linkEndTimes linkEndStates.
  by rewrite computeIdealObservationsWithLinkEndData_appends; case: linkEnd.
Qed.

(** The two vectors of a returned observation. *)
Definition linkEndDataOf (r : result ObservationWithLinkEndData) :
    option (seq F * seq StateType) :=
  if r is Returns output
  then Some (linkEndTimesAfter output, linkEndStatesAfter output) else None.

(** *** The line-of-sight helper functions *)

(** [calculateLineOfSightVelocityAsCFractionFromTransmitterStateFunction]:
    the transmitter velocity along the line of sight to a fixed receiver
    position, as a fraction of the speed of light. *)
Definition calculateLineOfSightVelocityAsCFractionFromTransmitterStateFunction
    (receiverPosition : PositionType) (transmitterStateFunction : F -> StateType)
    (currentTime : F) : F :=
  let currentState := transmitterStateFunction currentTime in
  calculateLineOfSightVelocityAsCFraction
    (normalized (receiverPosition - position_of currentState))
    (velocity_of currentState).

(** [calculateLineOfSightVelocityAsCFractionFromReceiverStateFunction]: the
    receiver velocity along the line of sight from a fixed transmitter
    position, as a fraction of the speed of light. *)
Definition calculateLineOfSightVelocityAsCFractionFromReceiverStateFunction
    (receiverStateFunction : F -> StateType) (transmitterPosition : PositionType)
    (currentTime : F) : F :=
  let currentState := receiverStateFunction currentTime in
  calculateLineOfSightVelocityAsCFraction
    (normalized (position_of currentState - transmitterPosition))
    (velocity_of currentState).

Lemma position_ofB (state1 state2 : StateType) :
  position_of (state1 - state2) = position_of state1 - position_of state2.
Proof. by rewrite /position_of linearB. Qed.

(** The Taylor series expansion is built from the two helper functions: with
    the transmitter and the receiver states taken from state functions at
    the transmission and the reception time, its transmitter term is the
    value of the transmitter helper (at the receiver position) and its
    receiver term is the value of the receiver helper (at the transmitter
    position). *)
Theorem dopplerExpansion_from_state_functions
    (transmitterStateFunction receiverStateFunction : F -> StateType)
    (transmissionTime receptionTime : F) (order : int) :
  let transmitterState := transmitterStateFunction transmissionTime in
  let receiverState := receiverStateFunction receptionTime in
  let a :=
    calculateLineOfSightVelocityAsCFractionFromTransmitterStateFunction
      (position_of receiverState) transmitterStateFunction transmissionTime in
  let x :=
    calculateLineOfSightVelocityAsCFractionFromReceiverStateFunction
      receiverStateFunction (position_of transmitterState) receptionTime in
  computeOneWayFirstOrderDopplerTaylorSeriesExpansion
    transmitterState receiverState order
  = - a + (\sum_(1 <= i < (numberOfPasses order).+1) x ^+ i) * (1 - a).
Proof.
move=> transmitterState receiverState a x.
rewrite computeOneWayFirstOrderDopplerTaylorSeriesExpansionE.
rewrite /a /x /transmitterFraction /receiverFraction /lineOfSight.
rewrite /calculateLineOfSightVelocityAsCFractionFromTransmitterStateFunction.
rewrite /calculateLineOfSightVelocityAsCFractionFromReceiverStateFunction.
by rewrite position_ofB.
Qed.



(** [computeIdealObservations] at the reception time gives the observable
    that [computeIdealObservationsWithLinkEndData] gives, whatever the two
    vectors hold; and both throw a runtime error for a link end that is
    neither transmitter nor receiver. *)
Theorem computeIdealObservations_receiver
    (model : OneWayDopplerObservationModel) (time : F)
    (linkEndTimes : seq F) (linkEndStates : seq StateType) :
  computeIdealObservations model time receiver
  = (let* output :=
       computeIdealObservationsWithLinkEndData
         model time receiver linkEndTimes linkEndStates in
     Returns (observable output))
  /\ (forall linkEnd, linkEnd \notin [:: transmitter; receiver] ->
       throws_runtime_error (computeIdealObservations model time linkEnd)
       /\ throws_runtime_error
            (computeIdealObservationsWithLinkEndData
               model time linkEnd linkEndTimes linkEndStates)).
Proof.
rewrite /computeIdealObservations /computeIdealObservationsWithLinkEndData /=.
split; first by case: (lightTimeCalculator_ model time true).
by case.
Qed.

(** The index [getLinkEndIndicesForLinkEndTypeAtObservable] gives for the
    reference link end of a one-way Doppler observable points, in the vector
    of times the model fills from empty, at the reference time itself; that
    vector and the vector of states have two entries. *)
Theorem linkEndIndex_of_reference_time
    (model : OneWayDopplerObservationModel) (time : F) (linkEnd : LinkEndType)
    (output : ObservationWithLinkEndData) :
  computeIdealObservationsWithLinkEndData model time linkEnd [::] [::]
    = Returns output ->
  exists index : nat,
    [/\ getLinkEndIndicesForLinkEndTypeAtObservable one_way_doppler linkEnd
          = Returns [:: Posz index],
        nth 0 (linkEndTimesAfter output) index = time,
        size (linkEndTimesAfter output) = 2
      & size (linkEndStatesAfter output) = 2].
Proof.
rewrite computeIdealObservationsWithLinkEndData_appends.
case: linkEnd => [|||code] //=.
- case: (lightTimeCalculator_ model time false) => [solution|e] //= [<-] /=.
  by exists 0%N.
- case: (lightTimeCalculator_ model time true) => [solution|e] //= [<-] /=.
  by exists 1%N.
Qed.

End OneWayDoppler.

(** A concrete call, over the rationals: the light-time calculator answers a
    light time of 2 and the states [transmitterState = 1], [receiverState = 2]
    (in every component), whatever the time. *)
Definition exampleLightTimeCalculator : LightTimeCalculator rat :=
  fun _ _ => Returns (mkLightTimeSolution 2 (const_mx 2) (const_mx 1)).

Definition exampleDopplerModel : OneWayDopplerObservationModel rat unit :=
  newOneWayDopplerObservationModel exampleLightTimeCalculator None.

(** The model of the concrete call, on empty vectors and for a link end that
    is neither transmitter nor receiver. *)
Lemma computeIdealObservationsWithLinkEndData_from_empty_witness :
  (exists value,
     computeIdealObservationsWithLinkEndData id 1 exampleDopplerModel
       10 receiver [::] [::]
     = Returns (mkObservationWithLinkEndData value
         [:: 10 - 2; 10] [:: const_mx 1; const_mx 2]))
  /\ (exists value,
     computeIdealObservationsWithLinkEndData id 1 exampleDopplerModel
       10 transmitter [::] [::]
     = Returns (mkObservationWithLinkEndData value
         [:: 10; 10 + 2] [:: const_mx 1; const_mx 2]))
  /\ throws_runtime_error
       (computeIdealObservationsWithLinkEndData id 1 exampleDopplerModel
          10 observed_body [:: 5] [:: 0]).
Proof.
have [Hreceiver [Htransmitter Hother]] :=
  computeIdealObservationsWithLinkEndData_from_empty id 1 exampleDopplerModel 10.
split; first exact: (Hreceiver _ (erefl _)).
split; first exact: (Htransmitter _ (erefl _)).
exact: Hother.
Defined.

(** C3, as the code behaves on vectors that are not empty.  A call at the
    reception time 10 with vectors that already hold one entry (the time 5
    and the zero state) hands back three times and three states: the earlier
    entry stays at index 0, the index
    [getLinkEndIndicesForLinkEndTypeAtObservable] gives for the transmitter
    of a one-way Doppler observable, and the transmission time [10 - 2] and
    the transmitter state follow it at index 1. *)
Theorem computeIdealObservationsWithLinkEndData_keeps_earlier_entries :
  linkEndDataOf
    (computeIdealObservationsWithLinkEndData id 1 exampleDopplerModel
       10 receiver [:: 5] [:: 0])
  = Some ([:: 5; 10 - 2; 10], [:: 0; const_mx 1; const_mx 2])
  /\ getLinkEndIndicesForLinkEndTypeAtObservable one_way_doppler transmitter
     = Returns [:: 0%Z]
  /\ getLinkEndIndicesForLinkEndTypeAtObservable one_way_doppler receiver
     = Returns [:: 1%Z]
  /\ (5 : rat) != 10 - 2.
Proof. by []. Qed.

(** The observation the concrete model returns at the reception time 10,
    from empty vectors. *)
Definition exampleDopplerOutput : ObservationWithLinkEndData rat :=
  mkObservationWithLinkEndData
    (computeOneWayFirstOrderDopplerTaylorSeriesExpansion id 1
       (const_mx 1) (const_mx 2) 3)
    [:: 10 - 2; 10] [:: const_mx 1; const_mx 2].

Lemma linkEndIndex_of_reference_time_witness :
  computeIdealObservationsWithLinkEndData id 1 exampleDopplerModel
    10 receiver [::] [::] = Returns exampleDopplerOutput
  /\ exists index : nat,
       [/\ getLinkEndIndicesForLinkEndTypeAtObservable one_way_doppler receiver
             = Returns [:: Posz index],
           nth 0 (linkEndTimesAfter exampleDopplerOutput) index = 10,
           size (linkEndTimesAfter exampleDopplerOutput) = 2
         & size (linkEndStatesAfter exampleDopplerOutput) = 2].
Proof.
have Houtput : computeIdealObservationsWithLinkEndData id 1 exampleDopplerModel
                 10 receiver [::] [::] = Returns exampleDopplerOutput by [].
split; first exact: Houtput.
exact: (linkEndIndex_of_reference_time Houtput).
Defined.

Lemma computeIdealObservations_receiver_witness :
  computeIdealObservations id 1 exampleDopplerModel 10 receiver
  = (let* output :=
       computeIdealObservationsWithLinkEndData id 1 exampleDopplerModel
         10 receiver [:: 5] [:: 0] in
     Returns (observable output))
  /\ observed_body \notin [:: transmitter; receiver]
  /\ throws_runtime_error
       (computeIdealObservations id 1 exampleDopplerModel 10 observed_body)
  /\ throws_runtime_error
       (computeIdealObservationsWithLinkEndData id 1 exampleDopplerModel
          10 observed_body [:: 5] [:: 0]).
Proof.
have [Hreceiver Hother] :=
  computeIdealObservations_receiver id 1 exampleDopplerModel 10 [:: 5] [:: 0].
have Hnotin : observed_body \notin [:: transmitter; receiver] by [].
have [Hthrows1 Hthrows2] := Hother observed_body Hnotin.
by split; [exact: Hreceiver | split; [exact: Hnotin | split]].
Defined.

(** *** Link-end indices *)

(** Whenever [getLinkEndIndicesForLinkEndTypeAtObservable] returns, it
    returns exactly one index, 0 or 1: 0 for the transmitter and 1 for the
    receiver; so no two link-end types of an observable share an index. *)
Theorem getLinkEndIndices_single_index
    (observableType : ObservableType) (linkEndType : LinkEndType)
    (linkEndIndices : seq int) :
  getLinkEndIndicesForLinkEndTypeAtObservable observableType linkEndType
    = Returns linkEndIndices ->
  exists index : nat,
    [/\ linkEndIndices = [:: Posz index],
        (index == 0%N) = (linkEndType == transmitter),
        (index == 1%N) = (linkEndType == receiver)
      & forall linkEndType',
          getLinkEndIndicesForLinkEndTypeAtObservable observableType linkEndType'
            = Returns linkEndIndices ->
          linkEndType' = linkEndType].
Proof.
case: observableType => [||||code] //=; case: linkEndType => [|||code'] //= [<-].
- by exists 0%N; split=> //; case.
- by exists 1%N; split=> //; case.
- by exists 0%N; split=> //; case.
- by exists 1%N; split=> //; case.
- by exists 0%N; split=> //; case.
- by exists 1%N; split=> //; case.
Qed.

Lemma getLinkEndIndices_single_index_witness :
  getLinkEndIndicesForLinkEndTypeAtObservable angular_position receiver
    = Returns [:: 1%Z]
  /\ exists index : nat,
       [/\ [:: 1%Z] = [:: Posz index],
           (index == 0%N) = (receiver == transmitter),
           (index == 1%N) = (receiver == receiver)
         & forall linkEndType',
             getLinkEndIndicesForLinkEndTypeAtObservable angular_position linkEndType'
               = Returns [:: 1%Z] ->
             linkEndType' = receiver].
Proof.
have Hreturns : getLinkEndIndicesForLinkEndTypeAtObservable angular_position receiver
                  = Returns [:: 1%Z] by [].
split; first exact: Hreturns.
exact: (getLinkEndIndices_single_index Hreturns).
Defined.

(** ** Estimation settings from JSON (JsonInterface/Estimation/orbitDetermination.h) *)

(** Modelled from the spec: the keys [Keys::Estimation] of keys.h, which is
    not among the sources.  The seven named keys are the ones [from_json]
    reads; [other_key] stands for every other key a JSON object may hold. *)
Inductive EstimationKey : Type :=
| reintegrateEquationsOnFirstIteration
| reintegrateVariationalEquations
| saveInformationMatrix
| printOutput
| saveResidualsAndParametersFromEachIteration
| saveStateHistoryForEachIteration
| maximumNumberOfIterations
| other_key (name : string).

Definition EstimationKey_eqb (a b : EstimationKey) : bool :=
  match a, b with
  | reintegrateEquationsOnFirstIteration, reintegrateEquationsOnFirstIteration => true
  | reintegrateVariationalEquations, reintegrateVariationalEquations => true
  | saveInformationMatrix, saveInformationMatrix => true
  | printOutput, printOutput => true
  | saveResidualsAndParametersFromEachIteration,
    saveResidualsAndParametersFromEachIteration => true
  | saveStateHistoryForEachIteration, saveStateHistoryForEachIteration => true
  | maximumNumberOfIterations, maximumNumberOfIterations => true
  | other_key m, other_key n => m == n
  | _, _ => false
  end.

Lemma EstimationKey_eqP : Equality.axiom EstimationKey_eqb.
Proof.
move=> a b; apply: (iffP idP) => [|<-]; last by case: a => //= n.
by case: a; case: b => //= m n /eqP ->.
Qed.

HB.instance Definition _ := hasDecEq.Build EstimationKey EstimationKey_eqP.

(** Modelled from the spec: [EstimationConvergenceChecker] of
    podInputOutputTypes.h, which is not among the sources: the object that
    holds the four values its constructor receives. *)
Record EstimationConvergenceChecker : Type := mkEstimationConvergenceChecker {
  maximumNumberOfIterations_ : int;
  minimumResidualChange_ : float;
  minimumResidual_ : float;
  numberOfIterationsWithoutImprovement_ : int
}.

(** Modelled from the spec: [PodSettings] of podInputOutputTypes.h, which is
    not among the sources: the object that holds the convergence checker and
    the six flags its constructor receives. *)
Record PodSettings : Type := mkPodSettings {
  convergenceChecker_ : EstimationConvergenceChecker;
  reintegrateEquationsOnFirstIteration_ : bool;
  reintegrateVariationalEquations_ : bool;
  saveInformationMatrix_ : bool;
  printOutput_ : bool;
  saveResidualsAndParametersFromEachIteration_ : bool;
  saveStateHistoryForEachIteration_ : bool
}.

Section JsonInterface.

(** [nlohmann::json] values and their conversions to [bool], [int] and
    [double]; a conversion may throw. *)
Variable json : Type.
Variable json_to_bool : json -> result bool.
Variable json_to_int : json -> result int.
Variable json_to_double : json -> result float.

(** The JSON object [from_json] receives: the value under each key, if any. *)
Definition jsonObjectType : Type := EstimationKey -> option json.

Definition emptyObject : jsonObjectType := fun _ => None.

Definition setKey (jsonObject : jsonObjectType) (key : EstimationKey) (value : json) :
    jsonObjectType :=
  fun k => if k == key then Some value else jsonObject k.

Definition eraseKey (jsonObject : jsonObjectType) (key : EstimationKey) :
    jsonObjectType :=
  fun k => if k == key then None else jsonObject k.

(** Modelled from the spec: [getValue< T >( jsonObject, key, defaultValue )]
    of valueAccess.h, which is not among the sources: the value the object
    holds under the key, converted to [T], or the default value when the
    object has no such key. *)
Definition getValue (T : Type) (convert : json -> result T)
    (jsonObject : jsonObjectType) (key : EstimationKey) (defaultValue : T) : result T :=
  if jsonObject key is Some value then convert value else Returns defaultValue.

(** [from_json] for [PodSettings].  The three values after
    [maximumNumberOfIterations] are read under the key
    [K::reintegrateEquationsOnFirstIteration], as in the source. *)
Definition from_json (jsonObject : jsonObjectType) : result PodSettings :=
  let* reintegrateEquationsOnFirstIteration' :=
    getValue json_to_bool jsonObject reintegrateEquationsOnFirstIteration true in
  let* reintegrateVariationalEquations' :=
    getValue json_to_bool jsonObject reintegrateVariationalEquations true in
  let* saveInformationMatrix' :=
    getValue json_to_bool jsonObject saveInformationMatrix true in
  let* printOutput' :=
    getValue json_to_bool jsonObject printOutput true in
  let* saveResidualsAndParametersFromEachIteration' :=
    getValue json_to_bool jsonObject saveResidualsAndParametersFromEachIteration true in
  let* saveStateHistoryForEachIteration' :=
    getValue json_to_bool jsonObject saveStateHistoryForEachIteration false in
  let* maximumNumberOfIterations' :=
    getValue json_to_int jsonObject maximumNumberOfIterations 5%Z in
  let* minimumResidualChange :=
    getValue json_to_double jsonObject reintegrateEquationsOnFirstIteration 0%float in
  let* minimumResidual :=
    getValue json_to_double jsonObject reintegrateEquationsOnFirstIteration 1.0e-20%float in
  let* numberOfIterationsWithoutImprovement :=
    getValue json_to_int jsonObject reintegrateEquationsOnFirstIteration 2%Z in
  Returns (mkPodSettings
    (mkEstimationConvergenceChecker
       maximumNumberOfIterations' minimumResidualChange minimumResidual
       numberOfIterationsWithoutImprovement)
    reintegrateEquationsOnFirstIteration' reintegrateVariationalEquations'
    saveInformationMatrix' printOutput'
    saveResidualsAndParametersFromEachIteration' saveStateHistoryForEachIteration').

(** The settings [from_json] builds from an object without any of the keys
    it reads. *)
Definition defaultPodSettings : PodSettings :=
  mkPodSettings (mkEstimationConvergenceChecker 5%Z 0%float 1.0e-20%float 2%Z)
    true true true true true false.

(** *** Properties *)

(** [from_json] looks at the seven named keys only. *)
Lemma from_json_setKey_other (jsonObject : jsonObjectType) (name : string) (value : json) :
  from_json (setKey jsonObject (other_key name) value) = from_json jsonObject.
Proof. by []. Qed.

(** The maximum number of iterations is the one criterion read under a key
    of its own. *)
Lemma from_json_maximumNumberOfIterations (value : json) (n : int) :
  json_to_int value = Returns n ->
  from_json (setKey emptyObject maximumNumberOfIterations value)
  = Returns (mkPodSettings (mkEstimationConvergenceChecker n 0%float 1.0e-20%float 2%Z)
      true true true true true false).
Proof. by rewrite /from_json /getValue /= => ->. Qed.

(** C4, as the code behaves.  The residual-change threshold, the residual
    threshold and the number of iterations without improvement are read under
    the key [reintegrateEquationsOnFirstIteration].  An object that holds a
    value under any other key for them (here: under three keys named after
    the criteria) gets the defaults 0.0, 1e-20 and 2 installed; and when the
    object holds the flag [reintegrateEquationsOnFirstIteration], the three
    criteria are conversions of that flag's value. *)
Theorem from_json_ignores_convergence_criteria (change residual count flag : json) :
  from_json
    (setKey (setKey (setKey emptyObject
       (other_key "minimumResidualChange") change)
       (other_key "minimumResidual") residual)
       (other_key "numberOfIterationsWithoutImprovement") count)
  = Returns defaultPodSettings
  /\ match from_json (setKey emptyObject reintegrateEquationsOnFirstIteration flag) with
     | Returns settings =>
         json_to_double flag
           = Returns (minimumResidualChange_ (convergenceChecker_ settings))
         /\ json_to_double flag
              = Returns (minimumResidual_ (convergenceChecker_ settings))
         /\ json_to_int flag
              = Returns (numberOfIterationsWithoutImprovement_
                           (convergenceChecker_ settings))
     | Throws _ => True
     end.
Proof.
split=> //.
rewrite /from_json /getValue /=.
case: (json_to_bool flag) => [b|e] //=.
case: (json_to_double flag) => [d|e] //=.
by case: (json_to_int flag) => [n|e].
Qed.

(** The six flags and the maximum number of iterations are read under keys
    of their own: whenever [from_json] returns, each of them is the converted
    value the object holds under its key, or its default (true for the first
    five flags, false for [saveStateHistoryForEachIteration], 5 for the
    maximum number of iterations) when the object has no such key. *)
Theorem from_json_installs_flags (jsonObject : jsonObjectType) (settings : PodSettings) :
  from_json jsonObject = Returns settings ->
  getValue json_to_bool jsonObject reintegrateEquationsOnFirstIteration true
    = Returns (reintegrateEquationsOnFirstIteration_ settings)
  /\ getValue json_to_bool jsonObject reintegrateVariationalEquations true
     = Returns (reintegrateVariationalEquations_ settings)
  /\ getValue json_to_bool jsonObject saveInformationMatrix true
     = Returns (saveInformationMatrix_ settings)
  /\ getValue json_to_bool jsonObject printOutput true
     = Returns (printOutput_ settings)
  /\ getValue json_to_bool jsonObject saveResidualsAndParametersFromEachIteration true
     = Returns (saveResidualsAndParametersFromEachIteration_ settings)
  /\ getValue json_to_bool jsonObject saveStateHistoryForEachIteration false
     = Returns (saveStateHistoryForEachIteration_ settings)
  /\ getValue json_to_int jsonObject maximumNumberOfIterations 5%Z
     = Returns (maximumNumberOfIterations_ (convergenceChecker_ settings)).
Proof.
rewrite /from_json.
case: (getValue json_to_bool jsonObject reintegrateEquationsOnFirstIteration true)
  => [b1|e] //=.
case: (getValue json_to_bool jsonObject reintegrateVariationalEquations true)
  => [b2|e] //=.
case: (getValue json_to_bool jsonObject saveInformationMatrix true) => [b3|e] //=.
case: (getValue json_to_bool jsonObject printOutput true) => [b4|e] //=.
case: (getValue json_to_bool jsonObject saveResidualsAndParametersFromEachIteration true)
  => [b5|e] //=.
case: (getValue json_to_bool jsonObject saveStateHistoryForEachIteration false)
  => [b6|e] //=.
case: (getValue json_to_int jsonObject maximumNumberOfIterations 5%Z) => [n|e] //=.
case: (getValue json_to_double jsonObject _ 0%float) => [d1|e] //=.
case: (getValue json_to_double jsonObject _ _) => [d2|e] //=.
by case: (getValue json_to_int jsonObject _ 2%Z) => [n2|e] //= [<-].
Qed.

End JsonInterface.

(** *** A concrete JSON object *)

(** JSON values for concrete calls: booleans, integers and reals, with
    conversions that accept a value of their own kind only. *)
Inductive exampleJson : Type :=
| jsonBoolean (b : bool)
| jsonInteger (n : int)
| jsonReal (x : float).

Definition exampleJsonToBool (value : exampleJson) : result bool :=
  if value is jsonBoolean b then Returns b
  else Throws (runtime_error "type must be boolean"%string).

Definition exampleJsonToInt (value : exampleJson) : result int :=
  if value is jsonInteger n then Returns n
  else Throws (runtime_error "type must be number"%string).

Definition exampleJsonToDouble (value : exampleJson) : result float :=
  if value is jsonReal x then Returns x
  else Throws (runtime_error "type must be number"%string).

(** The object [{ printOutput: false, maximumNumberOfIterations: 10 }]. *)
Definition exampleJsonObject : jsonObjectType exampleJson :=
  setKey (setKey (@emptyObject exampleJson) printOutput (jsonBoolean false))
    maximumNumberOfIterations (jsonInteger 10%Z).

Definition examplePodSettings : PodSettings :=
  mkPodSettings (mkEstimationConvergenceChecker 10%Z 0%float 1.0e-20%float 2%Z)
    true true true false true false.

Lemma from_json_installs_flags_witness :
  from_json exampleJsonToBool exampleJsonToInt exampleJsonToDouble exampleJsonObject
    = Returns examplePodSettings
  /\ getValue exampleJsonToBool exampleJsonObject printOutput true
     = Returns (printOutput_ examplePodSettings)
  /\ getValue exampleJsonToInt exampleJsonObject maximumNumberOfIterations 5%Z
     = Returns (maximumNumberOfIterations_ (convergenceChecker_ examplePodSettings)).
Proof.
have Hsettings :
  from_json exampleJsonToBool exampleJsonToInt exampleJsonToDouble exampleJsonObject
    = Returns examplePodSettings by [].
have [_ [_ [_ [Hprint [_ [_ Hmaximum]]]]]] := from_json_installs_flags Hsettings.
by split; [exact: Hsettings | split; [exact: Hprint | exact: Hmaximum]].
Defined.

(** ** Creating observation models (createObservationModel.h) *)

(** [LinkEndId]: a body name and a reference-point name (empty for none).
    [LinkEnds] is a [std::map< LinkEndType, LinkEndId >]: an association list
    whose keys are pairwise distinct ([wellFormedLinkEnds]). *)
Definition LinkEndId : Type := (string * string)%type.
Definition LinkEnds : Type := seq (LinkEndType * LinkEndId).

Definition linkEndTypesOf (linkEnds : LinkEnds) : seq LinkEndType := unzip1 linkEnds.

Definition wellFormedLinkEnds (linkEnds : LinkEnds) : bool :=
  uniq (linkEndTypesOf linkEnds).

(** [linkEnds.count( key )] and [linkEnds.at( key )]. *)
Definition linkEndsCount (linkEnds : LinkEnds) (key : LinkEndType) : nat :=
  count (fun entry => entry.1 == key) linkEnds.

Definition linkEndsAt (linkEnds : LinkEnds) (key : LinkEndType) : result LinkEndId :=
  if [seq entry <- linkEnds | entry.1 == key] is entry :: _
  then Returns entry.2 else Throws (out_of_range "map::at"%string).

(** Modelled from the spec: the enumeration [ObservationBiasTypes] of
    observationBias.h, which is not among the sources; [other_bias_type]
    stands for every value besides the one the code handles. *)
Inductive ObservationBiasTypes : Type :=
| constant_additive_bias
| other_bias_type (code : nat).

(** [ObservationBiasSettings] and its derived class
    [ConstantObservationBiasSettings]: the type tag of the base class, and
    the bias vector when the object is of the derived class (what
    [boost::dynamic_pointer_cast] tests). *)
Record ObservationBiasSettings : Type := mkObservationBiasSettings {
  observationBiasType_ : ObservationBiasTypes;
  asConstantObservationBiasSettings : option (seq float)
}.

(** The constructor of [ConstantObservationBiasSettings]. *)
Definition ConstantObservationBiasSettings (observationBias : seq float) :
    ObservationBiasSettings :=
  mkObservationBiasSettings constant_additive_bias (Some observationBias).

(** [ConstantObservationBias< ObservationSize >]. *)
Inductive ObservationBias : Type :=
| ConstantObservationBias (observationBias : seq float).

Definition throw_if (condition : bool) (what : string) : result unit :=
  if condition then Throws (runtime_error what) else Returns tt.

(** [createObservationBiasCalculator< ObservationSize >]. *)
Definition createObservationBiasCalculator (ObservationSize : nat)
    (biasSettings : ObservationBiasSettings) : result ObservationBias :=
  match observationBiasType_ biasSettings with
  | constant_additive_bias =>
      match asConstantObservationBiasSettings biasSettings with
      | None => Throws (runtime_error
          "Error when making constant observation bias, settings are inconsistent"%string)
      | Some observationBias =>
          let* _ := throw_if (size observationBias != ObservationSize)
            "Error when making constant observation bias, bias size is inconsistent" in
          Returns (ConstantObservationBias observationBias)
      end
  | other_bias_type _ =>
      Throws (runtime_error "Error when making observation bias, bias type "%string)
  end.

Section CreateObservationModel.

Variable F : realFieldType.

(** [simulation_setup::Body] and [LightTimeCorrectionSettings] (not among
    the sources); a [NamedBodyMap] maps body names to bodies. *)
Variable Body : Type.
Variable LightTimeCorrectionSettings : Type.

Definition NamedBodyMap : Type := string -> option Body.

Definition bodyMapAt (bodyMap : NamedBodyMap) (name : string) : result Body :=
  if bodyMap name is Some body then Returns body
  else Throws (out_of_range "unordered_map::at"%string).

(** [createLightTimeCalculator] (createLightTimeCalculator.h, not among the
    sources): it may throw. *)
Variable createLightTimeCalculator :
  LinkEndId -> LinkEndId -> NamedBodyMap -> seq LightTimeCorrectionSettings ->
  result (LightTimeCalculator F).

(** [ObservationSettings]; [biasSettings_] is [None] for a null pointer. *)
Record ObservationSettings : Type := mkObservationSettings {
  observableType_ : ObservableType;
  lightTimeCorrectionsList_ : seq LightTimeCorrectionSettings;
  biasSettings_ : option ObservationBiasSettings
}.

(** The observation models the creators build.  The position model holds
    the state function of a body, which the embedding identifies with the
    body. *)
Inductive ObservationModel : Type :=
| OneWayRangeObservationModel
    (lightTimeCalculator : LightTimeCalculator F)
    (observationBiasCalculator : option ObservationBias)
| OneWayDopplerModel (model : OneWayDopplerObservationModel F ObservationBias)
| AngularPositionObservationModel
    (lightTimeCalculator : LightTimeCalculator F)
    (observationBiasCalculator : option ObservationBias)
| PositionObservationModel
    (stateFunction : Body)
    (observationBiasCalculator : option ObservationBias).

(** The bias calculator of a model: none for null bias settings. *)
Definition createOptionalObservationBias (ObservationSize : nat)
    (biasSettings : option ObservationBiasSettings) : result (option ObservationBias) :=
  if biasSettings is Some settings
  then let* observationBias := createObservationBiasCalculator ObservationSize settings in
       Returns (Some observationBias)
  else Returns None.

(** [ObservationModelCreator< 1 >::createObservationModel]. *)
Definition createObservationModel1
    (linkEnds : LinkEnds) (observationSettings : ObservationSettings)
    (bodyMap : NamedBodyMap) : result ObservationModel :=
  match observableType_ observationSettings with
  | one_way_range =>
      let* _ := throw_if (size linkEnds != 2) "Error when making 1 way range model, " in
      let* _ := throw_if (linkEndsCount linkEnds receiver == 0)
        "Error when making 1 way range model, no receiver found" in
      let* _ := throw_if (linkEndsCount linkEnds transmitter == 0)
        "Error when making 1 way range model, no transmitter found" in
      let* observationBias :=
        createOptionalObservationBias 1 (biasSettings_ observationSettings) in
      let* transmitterId := linkEndsAt linkEnds transmitter in
      let* receiverId := linkEndsAt linkEnds receiver in
      let* lightTimeCalculator :=
        createLightTimeCalculator transmitterId receiverId bodyMap
          (lightTimeCorrectionsList_ observationSettings) in
      Returns (OneWayRangeObservationModel lightTimeCalculator observationBias)
  | one_way_doppler =>
      let* _ := throw_if (size linkEnds != 2) "Error when making 1 way range model, " in
      let* _ := throw_if (linkEndsCount linkEnds receiver == 0)
        "Error when making 1 way range model, no receiver found" in
      let* _ := throw_if (linkEndsCount linkEnds transmitter == 0)
        "Error when making 1 way range model, no transmitter found" in
      let* observationBias :=
        createOptionalObservationBias 1 (biasSettings_ observationSettings) in
      let* transmitterId := linkEndsAt linkEnds transmitter in
      let* receiverId := linkEndsAt linkEnds receiver in
      let* lightTimeCalculator :=
        createLightTimeCalculator transmitterId receiverId bodyMap
          (lightTimeCorrectionsList_ observationSettings) in
      Returns (OneWayDopplerModel
                 (newOneWayDopplerObservationModel lightTimeCalculator observationBias))
  | _ =>
      Throws (runtime_error "Error, observable "%string)
  end.

(** [ObservationModelCreator< 2 >::createObservationModel]. *)
Definition createObservationModel2
    (linkEnds : LinkEnds) (observationSettings : ObservationSettings)
    (bodyMap : NamedBodyMap) : result ObservationModel :=
  match observableType_ observationSettings with
  | angular_position =>
      let* _ := throw_if (size linkEnds != 2) "Error when making angular position model, " in
      let* _ := throw_if (linkEndsCount linkEnds receiver == 0)
        "Error when making angular position model, no receiver found" in
      let* _ := throw_if (linkEndsCount linkEnds transmitter == 0)
        "Error when making angular position model, no transmitter found" in
      let* observationBias :=
        createOptionalObservationBias 2 (biasSettings_ observationSettings) in
      let* transmitterId := linkEndsAt linkEnds transmitter in
      let* receiverId := linkEndsAt linkEnds receiver in
      let* lightTimeCalculator :=
        createLightTimeCalculator transmitterId receiverId bodyMap
          (lightTimeCorrectionsList_ observationSettings) in
      Returns (AngularPositionObservationModel lightTimeCalculator observationBias)
  | _ =>
      Throws (runtime_error "Error, observable "%string)
  end.

(** [ObservationModelCreator< 3 >::createObservationModel]. *)
Definition createObservationModel3
    (linkEnds : LinkEnds) (observationSettings : ObservationSettings)
    (bodyMap : NamedBodyMap) : result ObservationModel :=
  match observableType_ observationSettings with
  | position_observable =>
      let* _ := throw_if (size linkEnds != 1) "Error when making position observable model, " in
      let* _ := throw_if (linkEndsCount linkEnds observed_body == 0)
        "Error when making position observable model, no observed_body found" in
      let* _ := throw_if (0 < size (lightTimeCorrectionsList_ observationSettings))%N
        "Error when making position observable model, found light time corrections" in
      let* observedBodyId := linkEndsAt linkEnds observed_body in
      let* _ := throw_if (observedBodyId.2 != EmptyString)
        "Error, cannot yet create position function for reference point" in
      let* observationBias :=
        createOptionalObservationBias 3 (biasSettings_ observationSettings) in
      let* body := bodyMapAt bodyMap observedBodyId.1 in
      Returns (PositionObservationModel body observationBias)
  | _ =>
      Throws (runtime_error "Error, observable "%string)
  end.

(** The creator that is instantiated for an observable type, as
    [createObservationManagerBase] selects the observation size:
    [ObservationModelCreator< 1 >] for the one-way range and Doppler, [< 2 >]
    for the angular position, [< 3 >] for the position observable; for any
    other observable type [createObservationManagerBase] throws.  (The
    observable type of the manager and that of the settings are the same:
    "each settings object must be consistent with observableType".) *)
Definition createObservationModel
    (linkEnds : LinkEnds) (observationSettings : ObservationSettings)
    (bodyMap : NamedBodyMap) : result ObservationModel :=
  match observableType_ observationSettings with
  | one_way_range => createObservationModel1 linkEnds observationSettings bodyMap
  | one_way_doppler => createObservationModel1 linkEnds observationSettings bodyMap
  | angular_position => createObservationModel2 linkEnds observationSettings bodyMap
  | position_observable => createObservationModel3 linkEnds observationSettings bodyMap
  | other_observable _ =>
      Throws (runtime_error
        "Error when making observation manager, could not identify observable type "%string)
  end.

(** *** The link-end roles an observable requires *)

(** The roles the specification requires per observable type: transmitter
    and receiver for the one-way range, the one-way Doppler and the angular
    position; the observed body for the position observable. *)
Definition requiredLinkEndTypes (observableType : ObservableType) :
    option (seq LinkEndType) :=
  match observableType with
  | one_way_range | one_way_doppler | angular_position =>
      Some [:: transmitter; receiver]
  | position_observable => Some [:: observed_body]
  | other_observable _ => None
  end.

(** The link ends hold exactly the required roles. *)
Definition hasExactlyRequiredLinkEnds
    (observableType : ObservableType) (linkEnds : LinkEnds) : bool :=
  if requiredLinkEndTypes observableType is Some roles
  then perm_eq (linkEndTypesOf linkEnds) roles else false.

(** The size of an observable, as [createObservationManagerBase] fixes it. *)
Definition observationSizeOf (observableType : ObservableType) : nat :=
  match observableType with
  | one_way_range | one_way_doppler => 1
  | angular_position => 2
  | position_observable => 3
  | other_observable _ => 0
  end.

(** What the creators check besides the link-end roles. *)
Definition biasSettingsAccepted (ObservationSize : nat)
    (biasSettings : option ObservationBiasSettings) : bool :=
  if biasSettings is Some settings then
    match observationBiasType_ settings, asConstantObservationBiasSettings settings with
    | constant_additive_bias, Some observationBias =>
        size observationBias == ObservationSize
    | _, _ => false
    end
  else true.

Definition lightTimeCalculatorIsCreated
    (linkEnds : LinkEnds) (observationSettings : ObservationSettings)
    (bodyMap : NamedBodyMap) : bool :=
  returns
    (let* transmitterId := linkEndsAt linkEnds transmitter in
     let* receiverId := linkEndsAt linkEnds receiver in
     createLightTimeCalculator transmitterId receiverId bodyMap
       (lightTimeCorrectionsList_ observationSettings)).

Definition observedBodyIsUsable
    (linkEnds : LinkEnds) (observationSettings : ObservationSettings)
    (bodyMap : NamedBodyMap) : bool :=
  (size (lightTimeCorrectionsList_ observationSettings) == 0%N)
  && (if linkEndsAt linkEnds observed_body is Returns observedBodyId
      then (observedBodyId.2 == EmptyString) && isSome (bodyMap observedBodyId.1)
      else false).

Definition remainingChecksPass
    (linkEnds : LinkEnds) (observationSettings : ObservationSettings)
    (bodyMap : NamedBodyMap) : bool :=
  match observableType_ observationSettings with
  | position_observable =>
      observedBodyIsUsable linkEnds observationSettings bodyMap
      && biasSettingsAccepted 3 (biasSettings_ observationSettings)
  | observableType =>
      biasSettingsAccepted (observationSizeOf observableType)
        (biasSettings_ observationSettings)
      && lightTimeCalculatorIsCreated linkEnds observationSettings bodyMap
  end.

(** *** Properties of the creators *)

Lemma returns_bind (A B : Type) (r : result A) (k : A -> result B) :
  returns (bind r k) = if r is Returns a then returns (k a) else false.
Proof. by case: r. Qed.

Lemma bind_throw_if (A : Type) (condition : bool) (what : string) (k : result A) :
  (let* _ := throw_if condition what in k)
  = if condition then Throws (runtime_error what) else k.
Proof. by case: condition. Qed.

Lemma linkEndsCount_eq0 (linkEnds : LinkEnds) (key : LinkEndType) :
  (linkEndsCount linkEnds key == 0%N) = (key \notin linkEndTypesOf linkEnds).
Proof.
rewrite /linkEndsCount /linkEndTypesOf /unzip1 -has_pred1 has_count count_map.
by rewrite lt0n negbK.
Qed.

(** A duplicate-free list has exactly the elements of a duplicate-free list
    [roles] when it is as long and contains them all. *)
Lemma perm_eq_uniq_size (s roles : seq LinkEndType) :
  uniq s -> uniq roles ->
  perm_eq s roles = (size s == size roles) && all (mem s) roles.
Proof.
move=> uniq_s uniq_roles; apply/idP/andP => [perm_s|[/eqP size_s /allP sub_s]].
  split; first by rewrite (perm_size perm_s).
  by apply/allP => x x_roles; rewrite /= (perm_mem perm_s).
have sub_roles : {subset roles <= s} by [].
rewrite perm_sym; apply: uniq_perm => //.
by have [] := uniq_min_size uniq_roles sub_roles; rewrite ?size_s.
Qed.

Lemma linkEndsAt_returns (linkEnds : LinkEnds) (key : LinkEndType) :
  key \in linkEndTypesOf linkEnds -> returns (linkEndsAt linkEnds key).
Proof.
rewrite /linkEndsAt /linkEndTypesOf /unzip1 -has_pred1 has_map.
rewrite has_filter.
by case: [seq _ <- _ | _].
Qed.

(** The three checks on the link ends of a transmitter-receiver observable
    pass exactly when the link ends are the transmitter and the receiver. *)
Lemma transmitterReceiverChecks (A : Type) (linkEnds : LinkEnds)
    (what1 what2 what3 : string) (k : result A) :
  wellFormedLinkEnds linkEnds ->
  (let* _ := throw_if (size linkEnds != 2) what1 in
   let* _ := throw_if (linkEndsCount linkEnds receiver == 0%N) what2 in
   let* _ := throw_if (linkEndsCount linkEnds transmitter == 0%N) what3 in
   k)
  = if perm_eq (linkEndTypesOf linkEnds) [:: transmitter; receiver] then k
    else Throws (runtime_error
           (if size linkEnds != 2 then what1
            else if receiver \notin linkEndTypesOf linkEnds then what2 else what3)).
Proof.
move=> wf; rewrite !bind_throw_if !linkEndsCount_eq0 perm_eq_uniq_size //=.
rewrite /linkEndTypesOf size_map.
by case: (size linkEnds == 2); case: (receiver \in _); case: (transmitter \in _).
Qed.

Lemma observedBodyChecks (A : Type) (linkEnds : LinkEnds)
    (what1 what2 : string) (k : result A) :
  wellFormedLinkEnds linkEnds ->
  (let* _ := throw_if (size linkEnds != 1) what1 in
   let* _ := throw_if (linkEndsCount linkEnds observed_body == 0%N) what2 in
   k)
  = if perm_eq (linkEndTypesOf linkEnds) [:: observed_body] then k
    else Throws (runtime_error (if size linkEnds != 1 then what1 else what2)).
Proof.
move=> wf; rewrite !bind_throw_if !linkEndsCount_eq0 perm_eq_uniq_size //=.
rewrite /linkEndTypesOf size_map.
by case: (size linkEnds == 1); case: (observed_body \in _).
Qed.

Lemma returns_createOptionalObservationBias (ObservationSize : nat)
    (biasSettings : option ObservationBiasSettings) :
  returns (createOptionalObservationBias ObservationSize biasSettings)
  = biasSettingsAccepted ObservationSize biasSettings.
Proof.
case: biasSettings => [[[|code] [observationBias|]]|] //=.
by rewrite /createObservationBiasCalculator /=; case: (size _ == _).
Qed.

(** A creator throws for every observable type of another size. *)
Lemma createObservationModel_not_recognized
    (linkEnds : LinkEnds) (observationSettings : ObservationSettings)
    (bodyMap : NamedBodyMap) :
  [/\ observableType_ observationSettings \notin [:: one_way_range; one_way_doppler] ->
       throws_runtime_error
         (createObservationModel1 linkEnds observationSettings bodyMap),
       observableType_ observationSettings != angular_position ->
       throws_runtime_error
         (createObservationModel2 linkEnds observationSettings bodyMap)
     & observableType_ observationSettings != position_observable ->
       throws_runtime_error
         (createObservationModel3 linkEnds observationSettings bodyMap)].
Proof.
rewrite /createObservationModel1 /createObservationModel2 /createObservationModel3.
by split; case: (observableType_ observationSettings).
Qed.

(** C2, with the further checks of the creators spelled out.  For link ends
    with pairwise distinct roles:
    [createObservationModel] throws a runtime error whenever the link ends
    are not exactly the roles the observable type requires; and when they
    are, it constructs a model if and only if the remaining checks of the
    creator pass as well (acceptable bias settings; for the position
    observable no light-time corrections, no reference point and a body of
    that name; for the other observables a light-time calculator that can
    be created). *)
Theorem createObservationModel_link_end_roles
    (linkEnds : LinkEnds) (observationSettings : ObservationSettings)
    (bodyMap : NamedBodyMap) :
  wellFormedLinkEnds linkEnds ->
  (~~ hasExactlyRequiredLinkEnds (observableType_ observationSettings) linkEnds ->
     throws_runtime_error (createObservationModel linkEnds observationSettings bodyMap))
  /\ (hasExactlyRequiredLinkEnds (observableType_ observationSettings) linkEnds ->
      returns (createObservationModel linkEnds observationSettings bodyMap)
      = remainingChecksPass linkEnds observationSettings bodyMap).
Proof.
move=> wf.
rewrite /createObservationModel /createObservationModel1 /createObservationModel2
  /createObservationModel3 /remainingChecksPass /hasExactlyRequiredLinkEnds.
case: (observableType_ observationSettings) => [||||code] /=;
  rewrite ?transmitterReceiverChecks ?observedBodyChecks //.
- case: perm_eq; split=> // _.
  rewrite returns_bind -returns_createOptionalObservationBias.
  case: createOptionalObservationBias => [bias|e] //=.
  rewrite /lightTimeCalculatorIsCreated.
  case: (linkEndsAt linkEnds transmitter) => [transmitterId|e] //=.
  case: (linkEndsAt linkEnds receiver) => [receiverId|e] //=.
  by case: createLightTimeCalculator.
- case: perm_eq; split=> // _.
  rewrite returns_bind -returns_createOptionalObservationBias.
  case: createOptionalObservationBias => [bias|e] //=.
  rewrite /lightTimeCalculatorIsCreated.
  case: (linkEndsAt linkEnds transmitter) => [transmitterId|e] //=.
  case: (linkEndsAt linkEnds receiver) => [receiverId|e] //=.
  by case: createLightTimeCalculator.
- case: perm_eq; split=> // _.
  rewrite bind_throw_if /observedBodyIsUsable -returns_createOptionalObservationBias.
  rewrite lt0n; case: (size _ == 0%N) => //=.
  case: (linkEndsAt linkEnds observed_body) => [observedBodyId|e] //=.
  rewrite bind_throw_if; case: (_ == EmptyString) => //=.
  case: createOptionalObservationBias => [bias|e] /=; last by rewrite andbF.
  by rewrite andbT /bodyMapAt; case: (bodyMap _).
- case: perm_eq; split=> // _.
  rewrite returns_bind -returns_createOptionalObservationBias.
  case: createOptionalObservationBias => [bias|e] //=.
  rewrite /lightTimeCalculatorIsCreated.
  case: (linkEndsAt linkEnds transmitter) => [transmitterId|e] //=.
  case: (linkEndsAt linkEnds receiver) => [receiverId|e] //=.
  by case: createLightTimeCalculator.
Qed.

(** *** What a created model holds *)

(** The class of a model, named by the observable it computes, and its bias
    object. *)
Definition observableTypeOf (model : ObservationModel) : ObservableType :=
  match model with
  | OneWayRangeObservationModel _ _ => one_way_range
  | OneWayDopplerModel _ => one_way_doppler
  | AngularPositionObservationModel _ _ => angular_position
  | PositionObservationModel _ _ => position_observable
  end.

Definition observationBiasOf (model : ObservationModel) : option ObservationBias :=
  match model with
  | OneWayRangeObservationModel _ observationBias => observationBias
  | OneWayDopplerModel model' => observationBiasCalculator_ model'
  | AngularPositionObservationModel _ observationBias => observationBias
  | PositionObservationModel _ observationBias => observationBias
  end.

Lemma createOptionalObservationBias_vector (ObservationSize : nat)
    (biasSettings : option ObservationBiasSettings)
    (observationBias : option ObservationBias) :
  createOptionalObservationBias ObservationSize biasSettings = Returns observationBias ->
  observationBias
  = (if biasSettings is Some settings
     then omap ConstantObservationBias (asConstantObservationBiasSettings settings)
     else None).
Proof.
case: biasSettings => [[[|code] [vector|]]|] //=; last by case.
rewrite /createObservationBiasCalculator /=.
by case: (size vector != ObservationSize) => //= [[<-]].
Qed.

(** A model that [createObservationModel] returns is of the class of the
    observable type of the settings, holds as its bias the constant bias of
    the vector of the bias settings (none for null bias settings), and, for
    the position observable, the body the body map holds under the name of
    the observed body. *)
Theorem createObservationModel_holds_settings
    (linkEnds : LinkEnds) (observationSettings : ObservationSettings)
    (bodyMap : NamedBodyMap) (model : ObservationModel) :
  createObservationModel linkEnds observationSettings bodyMap = Returns model ->
  [/\ observableTypeOf model = observableType_ observationSettings,
      observationBiasOf model
      = (if biasSettings_ observationSettings is Some settings
         then omap ConstantObservationBias (asConstantObservationBiasSettings settings)
         else None)
    & forall body observationBias,
        model = PositionObservationModel body observationBias ->
        exists2 observedBodyId,
          linkEndsAt linkEnds observed_body = Returns observedBodyId
          & bodyMap observedBodyId.1 = Some body].
Proof.
rewrite /createObservationModel /createObservationModel1 /createObservationModel2
  /createObservationModel3.
case: (observableType_ observationSettings) => [||||code] //=;
  rewrite !bind_throw_if.
- case: ifP => // _; case: ifP => // _; case: ifP => // _.
  case Hbias: createOptionalObservationBias => [observationBias|e] //=.
  case: linkEndsAt => [transmitterId|e] //=; case: linkEndsAt => [receiverId|e] //=.
  case: createLightTimeCalculator => [lightTimeCalculator|e] //= [<-] /=.
  by split=> //; exact: createOptionalObservationBias_vector Hbias.
- case: ifP => // _; case: ifP => // _; case: ifP => // _.
  case Hbias: createOptionalObservationBias => [observationBias|e] //=.
  case: linkEndsAt => [transmitterId|e] //=; case: linkEndsAt => [receiverId|e] //=.
  case: createLightTimeCalculator => [lightTimeCalculator|e] //= [<-] /=.
  by split=> //; exact: createOptionalObservationBias_vector Hbias.
- case: ifP => // _; case: ifP => // _; case: ifP => // _.
  case Hat: linkEndsAt => [observedBodyId|e] //=.
  rewrite bind_throw_if; case: ifP => // _.
  case Hbias: createOptionalObservationBias => [observationBias|e] //=.
  rewrite /bodyMapAt; case Hbody: (bodyMap observedBodyId.1) => [body|] //= [<-] /=.
  split=> //; first exact: createOptionalObservationBias_vector Hbias.
  by move=> body' observationBias' [<- _]; exists observedBodyId.
- case: ifP => // _; case: ifP => // _; case: ifP => // _.
  case Hbias: createOptionalObservationBias => [observationBias|e] //=.
  case: linkEndsAt => [transmitterId|e] //=; case: linkEndsAt => [receiverId|e] //=.
  case: createLightTimeCalculator => [lightTimeCalculator|e] //= [<-] /=.
  by split=> //; exact: createOptionalObservationBias_vector Hbias.
Qed.

(** *** Creating an observation simulator *)

(** [observationModels[ linkEnds ] = model] on a [std::map]: the entry of
    the key is replaced, or a new entry is added.  (The loop below adds the
    keys of a map in their order, so a new entry is the last one.) *)
Fixpoint assignModel (observationModels : seq (LinkEnds * ObservationModel))
    (linkEnds : LinkEnds) (model : ObservationModel) :
    seq (LinkEnds * ObservationModel) :=
  if observationModels is entry :: rest then
    if entry.1 == linkEnds then (linkEnds, model) :: rest
    else entry :: assignModel rest linkEnds model
  else [:: (linkEnds, model)].

(** Modelled from the spec: the class [ObservationSimulator] of
    observationSimulator.h, which is not among the sources: the object that
    holds the observable type and the observation models per link ends its
    constructor receives. *)
Record ObservationSimulator : Type := mkObservationSimulator {
  simulatorObservableType_ : ObservableType;
  observationModels_ : seq (LinkEnds * ObservationModel)
}.

(** The creator a simulator is instantiated with: one of
    [ObservationModelCreator< 1 >], [< 2 >] and [< 3 >]. *)
Variable ObservationModelCreator :
  LinkEnds -> ObservationSettings -> NamedBodyMap -> result ObservationModel.

(** The loop of [createObservationSimulator] over the entries of
    [settingsPerLinkEnds], from the entry it has reached on. *)
Fixpoint createObservationModels
    (settingsPerLinkEnds : seq (LinkEnds * ObservationSettings))
    (bodyMap : NamedBodyMap)
    (observationModels : seq (LinkEnds * ObservationModel)) :
    result (seq (LinkEnds * ObservationModel)) :=
  if settingsPerLinkEnds is settingEntry :: rest then
    let* model := ObservationModelCreator settingEntry.1 settingEntry.2 bodyMap in
    createObservationModels rest bodyMap
      (assignModel observationModels settingEntry.1 model)
  else Returns observationModels.

(** [createObservationSimulator]. *)
Definition createObservationSimulator (observableType : ObservableType)
    (settingsPerLinkEnds : seq (LinkEnds * ObservationSettings))
    (bodyMap : NamedBodyMap) : result ObservationSimulator :=
  let* observationModels :=
    createObservationModels settingsPerLinkEnds bodyMap [::] in
  Returns (mkObservationSimulator observableType observationModels).

Lemma assignModel_new (observationModels : seq (LinkEnds * ObservationModel))
    (linkEnds : LinkEnds) (model : ObservationModel) :
  linkEnds \notin unzip1 observationModels ->
  assignModel observationModels linkEnds model
  = rcons observationModels (linkEnds, model).
Proof.
elim: observationModels => [|entry rest IH] //=.
rewrite inE negb_or eq_sym => /andP [/negPf -> notin_rest].
by rewrite IH.
Qed.

(** The loop, for keys that are pairwise distinct and new to the models
    created so far: it adds one model per entry, in order, each the model
    the creator returns; or it throws what the creator throws for the first
    entry it fails on. *)
Lemma createObservationModelsP
    (settingsPerLinkEnds : seq (LinkEnds * ObservationSettings))
    (bodyMap : NamedBodyMap)
    (observationModels : seq (LinkEnds * ObservationModel)) :
  uniq (unzip1 observationModels ++ unzip1 settingsPerLinkEnds) ->
  match createObservationModels settingsPerLinkEnds bodyMap observationModels with
  | Returns models =>
      exists created,
        [/\ models = observationModels ++ created,
            unzip1 created = unzip1 settingsPerLinkEnds
          & [seq ObservationModelCreator entry.1 entry.2 bodyMap
               | entry <- settingsPerLinkEnds]
            = [seq Returns entry.2 | entry <- created]]
  | Throws e =>
      exists before failing after,
        [/\ settingsPerLinkEnds = before ++ failing :: after,
            all (fun entry => returns (ObservationModelCreator entry.1 entry.2 bodyMap))
              before
          & ObservationModelCreator failing.1 failing.2 bodyMap = Throws e]
  end.
Proof.
elim: settingsPerLinkEnds observationModels => [|entry rest IH] models /=.
  by move=> _; exists [::]; rewrite cats0.
case Hmodel: (ObservationModelCreator entry.1 entry.2 bodyMap) => [model|e] /=;
  last by move=> _; exists [::], entry, rest.
move=> Huniq.
have notin_models : entry.1 \notin unzip1 models.
  by move: Huniq; rewrite cat_uniq /= negb_or => /and3P [_ /andP [] ].
rewrite assignModel_new //.
have Huniq' : uniq (unzip1 (rcons models (entry.1, model)) ++ unzip1 rest).
  by rewrite /unzip1 map_rcons cat_rcons.
have := IH _ Huniq'.
case: createObservationModels => [models'|e].
  case=> created [-> Hkeys Hcreated].
  exists ((entry.1, model) :: created).
  by rewrite cat_rcons /= Hkeys Hcreated.
case=> before [failing [after [-> Hbefore Hfailing]]].
exists (entry :: before), failing, after.
by rewrite /= Hmodel.
Qed.

Lemma all_returns_map (A B C : Type) (f : A -> result C) (g : B -> C)
    (s : seq A) (t : seq B) :
  [seq f a | a <- s] = [seq Returns (g b) | b <- t] ->
  all (fun a => returns (f a)) s.
Proof. by elim: s t => [|a s IH] [|b t] //= [-> /IH ->]. Qed.

(** [createObservationSimulator], for settings with pairwise distinct link
    ends: it returns exactly when the creator returns a model for every
    entry; the simulator then holds the observable type it was given and one
    model per entry, under the same link ends and in the same order, each
    the model the creator returns for that entry; otherwise it throws what
    the creator throws for the first entry it fails on. *)
Theorem createObservationSimulator_models (observableType : ObservableType)
    (settingsPerLinkEnds : seq (LinkEnds * ObservationSettings))
    (bodyMap : NamedBodyMap) :
  uniq (unzip1 settingsPerLinkEnds) ->
  returns (createObservationSimulator observableType settingsPerLinkEnds bodyMap)
    = all (fun entry => returns (ObservationModelCreator entry.1 entry.2 bodyMap))
        settingsPerLinkEnds
  /\ (forall simulator,
       createObservationSimulator observableType settingsPerLinkEnds bodyMap
         = Returns simulator ->
       [/\ simulatorObservableType_ simulator = observableType,
           unzip1 (observationModels_ simulator) = unzip1 settingsPerLinkEnds
         & [seq ObservationModelCreator entry.1 entry.2 bodyMap
              | entry <- settingsPerLinkEnds]
           = [seq Returns entry.2 | entry <- observationModels_ simulator]])
  /\ (forall e,
       createObservationSimulator observableType settingsPerLinkEnds bodyMap
         = Throws e ->
       exists before failing after,
         [/\ settingsPerLinkEnds = before ++ failing :: after,
             all (fun entry =>
                    returns (ObservationModelCreator entry.1 entry.2 bodyMap)) before
           & ObservationModelCreator failing.1 failing.2 bodyMap = Throws e]).
Proof.
move=> Huniq; rewrite /createObservationSimulator.
have := @createObservationModelsP settingsPerLinkEnds bodyMap [::] Huniq.
case: createObservationModels => [models|e] /=.
- case=> created [-> Hkeys Hcreated]; split; last split=> //.
  + by rewrite (all_returns_map Hcreated).
  + by move=> simulator [<-].
- case=> before [failing [after [Hsettings Hbefore Hfailing]]]; split; last split=> //.
  + by rewrite Hsettings all_cat /= Hfailing /= andbF.
  + by move=> e' [<-]; exists before, failing, after.
Qed.


End CreateObservationModel.

(** *** Concrete calls of the creators *)

(** An environment for concrete calls: bodies are bare tokens, the bodies
    Earth and Mars exist, and a light-time calculator can always be
    created. *)
Definition exampleBodyMap : NamedBodyMap unit :=
  fun name => if (name == "Earth"%string) || (name == "Mars"%string)
              then Some tt else None.

Definition exampleCreateLightTimeCalculator
    (transmitterId receiverId : LinkEndId) (bodyMap : NamedBodyMap unit)
    (lightTimeCorrections : seq unit) : result (LightTimeCalculator rat) :=
  Returns exampleLightTimeCalculator.

Definition earthToMars : LinkEnds :=
  [:: (transmitter, ("Earth"%string, EmptyString));
      (receiver, ("Mars"%string, EmptyString))].

Definition earthStation : LinkEnds :=
  [:: (observed_body, ("Earth", "Station"))]%string.

Definition earthOnly : LinkEnds :=
  [:: (observed_body, ("Earth"%string, EmptyString))].

(** C2: the required roles alone do not suffice.  Link ends that hold
    exactly the observed body do not make a position observable model: the creator throws when the
    observed body is a reference point on the body, and when the settings
    list a light-time correction. *)
Lemma createObservationModel_exact_roles_not_sufficient :
  (wellFormedLinkEnds earthStation
   /\ hasExactlyRequiredLinkEnds position_observable earthStation
   /\ createObservationModel exampleCreateLightTimeCalculator earthStation
        (mkObservationSettings position_observable [::] None) exampleBodyMap
      = Throws (runtime_error
          "Error, cannot yet create position function for reference point"))
  /\ (wellFormedLinkEnds earthOnly
      /\ hasExactlyRequiredLinkEnds position_observable earthOnly
      /\ createObservationModel exampleCreateLightTimeCalculator earthOnly
           (mkObservationSettings position_observable [:: tt] None) exampleBodyMap
         = Throws (runtime_error
             "Error when making position observable model, found light time corrections")).
Proof. by []. Qed.

Lemma createObservationModel_link_end_roles_witness :
  (wellFormedLinkEnds earthToMars
   /\ hasExactlyRequiredLinkEnds one_way_range earthToMars
   /\ returns (createObservationModel exampleCreateLightTimeCalculator earthToMars
                 (mkObservationSettings one_way_range [::] None) exampleBodyMap)
      = remainingChecksPass exampleCreateLightTimeCalculator earthToMars
          (mkObservationSettings one_way_range [::] None) exampleBodyMap)
  /\ (wellFormedLinkEnds earthOnly
      /\ ~~ hasExactlyRequiredLinkEnds one_way_doppler earthOnly
      /\ throws_runtime_error
           (createObservationModel exampleCreateLightTimeCalculator earthOnly
              (mkObservationSettings one_way_doppler [::] None) exampleBodyMap)).
Proof.
have wf1 : wellFormedLinkEnds earthToMars by [].
have wf2 : wellFormedLinkEnds earthOnly by [].
have [_ H1] := createObservationModel_link_end_roles exampleCreateLightTimeCalculator
  (mkObservationSettings one_way_range [::] None) exampleBodyMap wf1.
have [H2 _] := createObservationModel_link_end_roles exampleCreateLightTimeCalculator
  (mkObservationSettings one_way_doppler [::] None) exampleBodyMap wf2.
split; (split; [by [] | split; [by [] |]]).
- exact: H1.
- exact: H2.
Defined.

Definition earthPositionSettings : ObservationSettings unit :=
  mkObservationSettings position_observable [::]
    (Some (ConstantObservationBiasSettings [:: 1%float; 2%float; 3%float])).

Lemma createObservationModel_holds_settings_witness :
  createObservationModel exampleCreateLightTimeCalculator earthOnly
    earthPositionSettings exampleBodyMap
  = Returns (PositionObservationModel rat tt
      (Some (ConstantObservationBias [:: 1%float; 2%float; 3%float])))
  /\ observableTypeOf
       (PositionObservationModel rat tt
          (Some (ConstantObservationBias [:: 1%float; 2%float; 3%float])))
     = position_observable
  /\ exists2 observedBodyId,
       linkEndsAt earthOnly observed_body = Returns observedBodyId
       & exampleBodyMap observedBodyId.1 = Some tt.
Proof.
have Hmodel :
  createObservationModel exampleCreateLightTimeCalculator earthOnly
    earthPositionSettings exampleBodyMap
  = Returns (PositionObservationModel rat tt
      (Some (ConstantObservationBias [:: 1%float; 2%float; 3%float]))) by [].
have [Htype _ Hbody] := createObservationModel_holds_settings Hmodel.
by split; [exact: Hmodel | split; [exact: Htype | exact: Hbody]].
Defined.

(** Settings for two sets of link ends. *)
Definition marsToEarth : LinkEnds :=
  [:: (transmitter, ("Mars"%string, EmptyString));
      (receiver, ("Earth"%string, EmptyString))].

Definition exampleSettingsPerLinkEnds : seq (LinkEnds * ObservationSettings unit) :=
  [:: (earthToMars, mkObservationSettings one_way_range [::] None);
      (marsToEarth, mkObservationSettings one_way_doppler [::] None)].

Lemma createObservationSimulator_models_witness :
  uniq (unzip1 exampleSettingsPerLinkEnds)
  /\ returns (createObservationSimulator
                (createObservationModel1 exampleCreateLightTimeCalculator)
                one_way_range exampleSettingsPerLinkEnds exampleBodyMap)
     = all (fun entry =>
              returns (createObservationModel1 exampleCreateLightTimeCalculator
                         entry.1 entry.2 exampleBodyMap))
         exampleSettingsPerLinkEnds.
Proof.
have Huniq : uniq (unzip1 exampleSettingsPerLinkEnds) by [].
have [Hreturns _] :=
  createObservationSimulator_models
    (createObservationModel1 exampleCreateLightTimeCalculator)
    one_way_range exampleBodyMap Huniq.
by split; [exact: Huniq | exact: Hreturns].
Defined.

(** ** Angle between vectors (Mathematics/BasicMathematics/linearAlgebra.cpp) *)

(** *** Comparisons of binary64 numbers *)












Section AngleBetweenVectors.

(** An [Eigen::VectorXd] is a list of binary64 numbers.  [normalizedVector]
    and [dotProduct] are Eigen's [normalized] and [dot], [acos] is
    [std::acos]. *)
Variable normalizedVector : seq float -> seq float.
Variable dotProduct : seq float -> seq float -> float.
Variable acos : float -> float.





End AngleBetweenVectors.

(** *** Concrete calls *)






(** ** Normal equations of the estimator *)

(** The estimator itself (the orbit-determination manager) is not among the
    sources; only a unit test of its input and output is.  This section
    models one run of it from the specification. *)

Section NormalEquations.

Variable F : realFieldType.

(** [m] observations, [n] estimated parameters. *)
Variables m n : nat.

(** Modelled from the spec: what the observation managers deliver for the
    current parameter values (the estimator, OrbitDeterminationManager, is
    missing from the sources): the design matrix H of stacked Jacobian rows,
    and the residuals r = observed - simulated. *)
Variable designMatrix : 'cV[F]_n -> 'M[F]_(m, n).
Variable residuals : 'cV[F]_n -> 'cV[F]_m.

(** Modelled from the spec: the convergence policy of the estimator, missing
    from the sources, as far as it looks at the residuals: a root mean square
    of the residual vector, and a test on the history of these that ends the
    iteration.  The bound on the number of iterations is the argument
    [maximumIterations] of [estimate]. *)
Variable residualRms : 'cV[F]_m -> F.
Variable residualCriteriaMet : seq F -> bool.

(** Modelled from the spec: the information matrix of the estimator (missing
    from the sources), initialised from the inverse a priori covariance and
    accumulating [H^T W H], with W the diagonal matrix of the weights. *)
Definition informationMatrix (inverseAPrioriCovariance : 'M[F]_n)
    (weights : 'rV[F]_m) (H : 'M[F]_(m, n)) : 'M[F]_n :=
  inverseAPrioriCovariance + H^T *m diag_mx weights *m H.

(** Modelled from the spec: the weighted residual vector of the estimator
    (missing from the sources), initialised from the inverse a priori
    covariance and the a priori parameter deviation and accumulating
    [H^T W r]. *)
Definition weightedResidualVector (inverseAPrioriCovariance : 'M[F]_n)
    (aPrioriDeviation : 'cV[F]_n) (weights : 'rV[F]_m)
    (H : 'M[F]_(m, n)) (r : 'cV[F]_m) : 'cV[F]_n :=
  inverseAPrioriCovariance *m aPrioriDeviation + H^T *m diag_mx weights *m r.

(** Modelled from the spec: the estimation result [PodOutput] (missing from
    the sources): final parameters, the correction of each iteration, the
    unnormalized inverse covariance (the information matrix of the last
    iteration) and the history of the residual root mean square. *)
Record PodOutput : Type := mkPodOutput {
  finalParameters : 'cV[F]_n;
  parameterCorrections : seq 'cV[F]_n;
  unnormalizedInverseCovariance : 'M[F]_n;
  residualHistory : seq F
}.

(** Modelled from the spec: the iteration of the estimator (missing from the
    sources): linearize and accumulate, solve
    [correction = (information matrix)^-1 (weighted residual vector)],
    update the parameters, check convergence, repeat.  [None] is the failure
    [SingularNormalEquations]; [remaining] is the number of iterations left
    before the maximum is reached. *)
Fixpoint iterateEstimation (inverseAPrioriCovariance : 'M[F]_n)
    (aPrioriDeviation : 'cV[F]_n) (weights : 'rV[F]_m)
    (remaining : nat) (parameters : 'cV[F]_n)
    (corrections : seq 'cV[F]_n) (history : seq F) : option PodOutput :=
  if remaining is remaining'.+1 then
    let H := designMatrix parameters in
    let r := residuals parameters in
    let information := informationMatrix inverseAPrioriCovariance weights H in
    let rightHandSide :=
      weightedResidualVector inverseAPrioriCovariance aPrioriDeviation weights H r in
    if information \in unitmx then
      let correction := invmx information *m rightHandSide in
      let parameters' := parameters + correction in
      let corrections' := rcons corrections correction in
      let history' := rcons history (residualRms r) in
      if (remaining' == 0%N) || residualCriteriaMet history' then
        Some (mkPodOutput parameters' corrections' information history')
      else
        iterateEstimation inverseAPrioriCovariance aPrioriDeviation weights
          remaining' parameters' corrections' history'
    else None
  else None.

(** Modelled from the spec: [estimate] (missing from the sources), one run of
    the estimator from the initial parameter values. *)
Definition estimate (inverseAPrioriCovariance : 'M[F]_n)
    (aPrioriDeviation : 'cV[F]_n) (weights : 'rV[F]_m)
    (maximumIterations : nat) (initialParameters : 'cV[F]_n) : option PodOutput :=
  iterateEstimation inverseAPrioriCovariance aPrioriDeviation weights
    maximumIterations initialParameters [::] [::].

(** An estimation result with its inverse covariance scaled. *)
Definition scaleInverseCovariance (k : F) (output : PodOutput) : PodOutput :=
  mkPodOutput (finalParameters output) (parameterCorrections output)
    (k *: unnormalizedInverseCovariance output) (residualHistory output).

(** *** Scaling the weights *)

Lemma informationMatrix_scale (k : F) (weights : 'rV[F]_m) (H : 'M[F]_(m, n)) :
  informationMatrix 0 (k *: weights) H = k *: informationMatrix 0 weights H.
Proof. by rewrite /informationMatrix !add0r linearZ /= -scalemxAr -scalemxAl. Qed.

Lemma weightedResidualVector_scale (k : F) (aPrioriDeviation : 'cV[F]_n)
    (weights : 'rV[F]_m) (H : 'M[F]_(m, n)) (r : 'cV[F]_m) :
  weightedResidualVector 0 aPrioriDeviation (k *: weights) H r
  = k *: weightedResidualVector 0 aPrioriDeviation weights H r.
Proof.
by rewrite /weightedResidualVector !mul0mx !add0r linearZ /= -scalemxAr -scalemxAl.
Qed.

Lemma solve_scale (k : F) (information : 'M[F]_n) (rightHandSide : 'cV[F]_n) :
  k != 0 -> information \in unitmx ->
  invmx (k *: information) *m (k *: rightHandSide)
  = invmx information *m rightHandSide.
Proof.
move=> k_neq0 information_unit.
rewrite invmxZ ?unitmxZ ?unitfE // -scalemxAl -scalemxAr scalerA.
by rewrite mulVf // scale1r.
Qed.

Lemma iterateEstimation_scale (k : F) (aPrioriDeviation : 'cV[F]_n)
    (weights : 'rV[F]_m) (remaining : nat) (parameters : 'cV[F]_n)
    (corrections : seq 'cV[F]_n) (history : seq F) :
  k != 0 ->
  iterateEstimation 0 aPrioriDeviation (k *: weights)
    remaining parameters corrections history
  = omap (scaleInverseCovariance k)
      (iterateEstimation 0 aPrioriDeviation weights
         remaining parameters corrections history).
Proof.
move=> k_neq0.
elim: remaining parameters corrections history => [|remaining IH] p cs hs //=.
rewrite informationMatrix_scale weightedResidualVector_scale unitmxZ ?unitfE //.
case: ifP => // information_unit.
rewrite solve_scale //.
by case: ifP => // _; rewrite IH.
Qed.

(** C6, without a priori constraint.  When no a priori constraint is applied (the inverse a
    priori covariance is zero), scaling all observation weights by a
    constant [k <> 0] leaves the estimation as it was (same corrections, same
    final parameters, same residual history, same failure if the normal
    equations are singular), except that the unnormalized inverse covariance
    is scaled by [k], entry by entry. *)
Theorem estimate_weight_scaling (k : F) (aPrioriDeviation : 'cV[F]_n)
    (weights : 'rV[F]_m) (maximumIterations : nat) (initialParameters : 'cV[F]_n) :
  k != 0 ->
  estimate 0 aPrioriDeviation (k *: weights) maximumIterations initialParameters
  = omap (scaleInverseCovariance k)
      (estimate 0 aPrioriDeviation weights maximumIterations initialParameters)
  /\ (forall output i j,
       unnormalizedInverseCovariance (scaleInverseCovariance k output) i j
       = k * unnormalizedInverseCovariance output i j)
  /\ (forall output,
       parameterCorrections (scaleInverseCovariance k output)
       = parameterCorrections output
       /\ finalParameters (scaleInverseCovariance k output) = finalParameters output).
Proof.
move=> k_neq0; split; first exact: iterateEstimation_scale.
by split=> [output i j|output] //; rewrite /= mxE.
Qed.

(** With a maximum of one iteration the estimator solves the normal
    equations once. *)
Lemma estimate_one_iteration (inverseAPrioriCovariance : 'M[F]_n)
    (aPrioriDeviation : 'cV[F]_n) (weights : 'rV[F]_m) (p : 'cV[F]_n) :
  estimate inverseAPrioriCovariance aPrioriDeviation weights 1 p
  = let information :=
      informationMatrix inverseAPrioriCovariance weights (designMatrix p) in
    let correction :=
      invmx information
      *m weightedResidualVector inverseAPrioriCovariance aPrioriDeviation weights
           (designMatrix p) (residuals p) in
    if information \in unitmx
    then Some (mkPodOutput (p + correction) [:: correction] information
                 [:: residualRms (residuals p)])
    else None.
Proof. by []. Qed.

End NormalEquations.

(** *** A concrete estimation problem *)

(** One parameter observed once, over the rationals: the observable is the
    parameter itself, observed as 1. *)
Definition exampleDesignMatrix (p : 'cV[rat]_1) : 'M[rat]_(1, 1) := 1%:M.
Definition exampleResiduals (p : 'cV[rat]_1) : 'cV[rat]_1 := 1%:M - p.
Definition exampleResidualRms (r : 'cV[rat]_1) : rat := `|r 0 0|.
Definition exampleResidualCriteriaMet (history : seq rat) : bool :=
  last 1 history == 0.

Definition exampleEstimate :=
  estimate exampleDesignMatrix exampleResiduals exampleResidualRms
    exampleResidualCriteriaMet.

Lemma unitmx11 (A : 'M[rat]_1) : (A \in unitmx) = (A 0 0 != 0).
Proof. by rewrite unitmxE det_mx11 unitfE. Qed.

Lemma exampleInformationMatrix (a w : rat) :
  informationMatrix a%:M (w *: const_mx 1) (exampleDesignMatrix 0) = (a + w)%:M.
Proof.
rewrite /informationMatrix /exampleDesignMatrix trmx1 mul1mx mulmx1.
by rewrite linearZ /= diag_const_mx scalemx1 -raddfD.
Qed.

Lemma exampleInformationMatrix1 (a : rat) :
  informationMatrix a%:M (const_mx 1) (exampleDesignMatrix 0) = (a + 1)%:M.
Proof. by rewrite -[const_mx 1]scale1r exampleInformationMatrix. Qed.

(** C6 does not extend to a non-zero a priori covariance.  With the inverse
    a priori covariance 1, the
    weight 1 gives the inverse covariance 1 + 1 = 2, and the weight 2 (all
    weights scaled by [k = 2]) gives 1 + 2 = 3, which is not 2 * 2; both
    problems are consistent and non-singular. *)
Lemma estimate_weight_scaling_fails_with_a_priori :
  exists output scaledOutput,
    [/\ exampleEstimate 1%:M 0 (const_mx 1) 1 0 = Some output,
        exampleEstimate 1%:M 0 (2 *: const_mx 1) 1 0 = Some scaledOutput,
        unnormalizedInverseCovariance output 0 0 = 2,
        unnormalizedInverseCovariance scaledOutput 0 0 = 3
      & unnormalizedInverseCovariance scaledOutput 0 0
        != 2 * unnormalizedInverseCovariance output 0 0].
Proof.
rewrite /exampleEstimate !estimate_one_iteration /=.
rewrite exampleInformationMatrix exampleInformationMatrix1 !unitmx11 !mxE /=.
do 2!eexists; split; try reflexivity; by rewrite /= !mxE.
Qed.

Lemma estimate_weight_scaling_witness :
  (2 : rat) != 0
  /\ (exampleEstimate 0 0 (2 *: const_mx 1) 3 0
       = omap (scaleInverseCovariance 2) (exampleEstimate 0 0 (const_mx 1) 3 0)
      /\ (forall (output : PodOutput rat 1) i j,
           unnormalizedInverseCovariance (scaleInverseCovariance 2 output) i j
           = 2 * unnormalizedInverseCovariance output i j)
      /\ (forall output : PodOutput rat 1,
           parameterCorrections (scaleInverseCovariance 2 output)
           = parameterCorrections output
           /\ finalParameters (scaleInverseCovariance 2 output)
              = finalParameters output)).
Proof.
have two_neq0 : (2 : rat) != 0 by [].
split=> //.
exact: (estimate_weight_scaling exampleDesignMatrix exampleResiduals
          exampleResidualRms exampleResidualCriteriaMet 0 (const_mx 1) 3 0 two_neq0).
Defined.

(** ** Cross-product matrix and vector norms
       (Mathematics/BasicMathematics/linearAlgebra.cpp) *)

Section LinearAlgebra.

(** The functions are written for [double].  The properties below are those
    of exact arithmetic: the scalars are taken from an ordered field [F], so
    that rounding, infinities and NaN are left out; [sqrt] is the square
    root of Eigen's [norm]. *)
Variable F : realFieldType.
Variable sqrt : F -> F.

(** [Eigen::Vector3d] and [Eigen::Matrix3d]; [x( )], [y( )] and [z( )] are
    the coefficients 0, 1 and 2 of a vector. *)
Definition Vector3d : Type := 'cV[F]_3.
Definition Matrix3d : Type := 'M[F]_3.

Definition vector_x (vector : Vector3d) : F := vector 0 0.
Definition vector_y (vector : Vector3d) : F := vector 1 0.
Definition vector_z (vector : Vector3d) : F := vector (1 + 1) 0.

(** [matrix( row, column ) = value]. *)
Definition assignCoefficient (matrix : Matrix3d) (row column : nat) (value : F) :
    Matrix3d :=
  \matrix_(i, j) if (i == row :> nat) && (j == column :> nat) then value
                 else matrix i j.

(** [getCrossProductMatrix]. *)
Definition getCrossProductMatrix (vector : Vector3d) : Matrix3d :=
  let crossProductMatrix : Matrix3d := 0 in
  let crossProductMatrix := assignCoefficient crossProductMatrix 1 0 (vector_z vector) in
  let crossProductMatrix := assignCoefficient crossProductMatrix 0 1 (- vector_z vector) in
  let crossProductMatrix := assignCoefficient crossProductMatrix 2 0 (- vector_y vector) in
  let crossProductMatrix := assignCoefficient crossProductMatrix 0 2 (vector_y vector) in
  let crossProductMatrix := assignCoefficient crossProductMatrix 2 1 (vector_x vector) in
  let crossProductMatrix := assignCoefficient crossProductMatrix 1 2 (- vector_x vector) in
  crossProductMatrix.

(** The cross product of two vectors (Eigen's [cross]). *)
Definition cross (u v : Vector3d) : Vector3d :=
  \col_i (if (i == 0 :> nat)%N then vector_y u * vector_z v - vector_z u * vector_y v
          else if (i == 1 :> nat)%N then vector_z u * vector_x v - vector_x u * vector_z v
          else vector_x u * vector_y v - vector_y u * vector_x v).

(** Eigen's [norm]. *)
Definition norm (n : nat) (v : 'cV[F]_n) : F := sqrt (squaredNorm v).

(** [computeVectorDifference], [computeNormOfVectorDifference] and
    [getVectorNorm]. *)
Definition computeVectorDifference (vector0 vector1 : Vector3d) : Vector3d :=
  vector0 - vector1.

Definition computeNormOfVectorDifference (vector0 vector1 : Vector3d) : F :=
  norm (vector0 - vector1).

Definition getVectorNorm (vector : Vector3d) : F := norm vector.

Lemma ord3P (P : 'I_3 -> Prop) : P 0 -> P 1 -> P (1 + 1) -> forall i, P i.
Proof.
move=> P0 P1 P2 [[|[|[|i]]] Hi] //.
- by rewrite (_ : Ordinal Hi = 0) //; apply: val_inj.
- by rewrite (_ : Ordinal Hi = 1) //; apply: val_inj.
- by rewrite (_ : Ordinal Hi = 1 + 1) //; apply: val_inj.
Qed.

Lemma getCrossProductMatrixE (vector : Vector3d) (i j : 'I_3) :
  getCrossProductMatrix vector i j
  = match (i : nat), (j : nat) with
    | 0%N, 1%N => - vector_z vector
    | 0%N, 2%N => vector_y vector
    | 1%N, 0%N => vector_z vector
    | 1%N, 2%N => - vector_x vector
    | 2%N, 0%N => - vector_y vector
    | 2%N, 1%N => vector_x vector
    | _, _ => 0
    end.
Proof.
by elim/ord3P: i; elim/ord3P: j; rewrite /getCrossProductMatrix !mxE.
Qed.

Lemma lift_ord0_1 : lift ord0 ord0 = 1 :> 'I_3.
Proof. exact: val_inj. Qed.

Lemma lift_ord0_2 : lift ord0 (lift ord0 ord0) = 1 + 1 :> 'I_3.
Proof. exact: val_inj. Qed.

Lemma ord0_0 : ord0 = 0 :> 'I_3.
Proof. exact: val_inj. Qed.

Lemma sum3 (f : 'I_3 -> F) : \sum_i f i = f 0 + f 1 + f (1 + 1).
Proof.
by rewrite !big_ord_recl big_ord0 addr0 addrA lift_ord0_1 lift_ord0_2 ord0_0.
Qed.

(** In exact arithmetic, the matrix [getCrossProductMatrix] returns for a
    vector is antisymmetric, its product with any other vector is the cross
    product of the two vectors, and its product with the vector itself is
    zero. *)
Theorem getCrossProductMatrix_cross (vector : Vector3d) :
  [/\ (getCrossProductMatrix vector)^T = - getCrossProductMatrix vector,
      forall other, getCrossProductMatrix vector *m other = cross vector other
    & getCrossProductMatrix vector *m vector = 0].
Proof.
have Hcross other : getCrossProductMatrix vector *m other = cross vector other.
  apply/colP; elim/ord3P; rewrite !mxE sum3 !getCrossProductMatrixE /=;
    rewrite /vector_x /vector_y /vector_z; ring.
split=> //.
- apply/matrixP; elim/ord3P; elim/ord3P;
    by rewrite /getCrossProductMatrix !mxE /= ?oppr0 ?opprK.
- rewrite Hcross; apply/colP; elim/ord3P; rewrite !mxE /=;
    rewrite /vector_x /vector_y /vector_z; ring.
Qed.

Lemma squaredNormN (n : nat) (v : 'cV[F]_n) : squaredNorm (- v) = squaredNorm v.
Proof.
by rewrite /squaredNorm /dot; apply: eq_bigr => i _; rewrite !mxE mulrNN.
Qed.

(** In exact arithmetic, [computeNormOfVectorDifference] does not depend on
    the order of its arguments, it is [getVectorNorm] of
    [computeVectorDifference], and it is unchanged when both vectors are
    shifted by the same vector. *)
Theorem computeNormOfVectorDifference_symmetric (vector0 vector1 : Vector3d) :
  [/\ computeNormOfVectorDifference vector0 vector1
      = computeNormOfVectorDifference vector1 vector0,
      computeNormOfVectorDifference vector0 vector1
      = getVectorNorm (computeVectorDifference vector0 vector1)
    & forall shift,
        computeNormOfVectorDifference (vector0 + shift) (vector1 + shift)
        = computeNormOfVectorDifference vector0 vector1].
Proof.
split=> //.
- by rewrite /computeNormOfVectorDifference /norm -squaredNormN opprB.
- by move=> shift; rewrite /computeNormOfVectorDifference opprD addrACA subrr addr0.
Qed.

End LinearAlgebra.

(** ** Utilities (Basics/utilities.h) *)

(** The functions below index into vectors with [operator[]], which is
    undefined outside of the vector.  They return an [option]: [None] stands
    for an access outside of a vector. *)

Section Utilities.

Variable T : Type.






End Utilities.

Section MapUtilities.

Variables KeyType VectorArgument : Type.




End MapUtilities.

Section VectorUtilities.

Variable T : Type.




End VectorUtilities.





